(** * Shallow embedding of the review subsystem (reviewer.py, server.py)

    The Python functions of [reviewer.py] and the entry point of [server.py]
    are embedded as Rocq functions over an explicit model of their
    environment:

    - Python [str] values are Rocq [string]s (ASCII text);
    - every call into the environment (a [git] subprocess, [open(...).read()],
      a chat-completion request) is recorded, in order, in a log of [event]s
      and answered by an oracle of the [World] that may depend on the whole
      log so far;
    - a Python exception is the [Raise] outcome of the monad [M];
    - library functions whose behaviour is fixed outside the repository
      ([urllib.parse.unquote], [pathlib.Path.as_posix], [str()] of a
      non-string value, iteration order of a [set]) are fields of the
      [Runtime] class.

    Calls to [logger] only write to stderr and are left out. *)

From Stdlib Require Import String Ascii List ZArith Bool Arith Lia DecimalString.
Import ListNotations.
Open Scope list_scope.
Open Scope string_scope.


(** ** Python strings *)

Module Py.

Definition LF : ascii := ascii_of_nat 10.
Definition nl : string := String LF EmptyString.
Definition nlnl : string := String LF nl.

(** [str.isspace] on ASCII: TAB..CR, FS..US and SPACE; the same set is what
    [\s] matches in a [str] pattern of [re]. *)
Definition is_space (c : ascii) : bool :=
  let n := nat_of_ascii c in
  ((9 <=? n)%nat && (n <=? 13)%nat) || ((28 <=? n)%nat && (n <=? 32)%nat).

Fixpoint lstrip (s : string) : string :=
  match s with
  | EmptyString => EmptyString
  | String c s' => if is_space c then lstrip s' else s
  end.

Fixpoint rstrip (s : string) : string :=
  match s with
  | EmptyString => EmptyString
  | String c s' =>
      match rstrip s' with
      | EmptyString => if is_space c then EmptyString else String c EmptyString
      | r => String c r
      end
  end.

(** [s.strip()] *)
Definition strip (s : string) : string := rstrip (lstrip s).

(** Truthiness of a [str]: non-empty. *)
Definition truthy (s : string) : bool :=
  match s with EmptyString => false | _ => true end.

(** [s.split(sep)] for a one-character separator. *)
Fixpoint split (sep : ascii) (s : string) : list string :=
  match s with
  | EmptyString => [EmptyString]
  | String c s' =>
      if Ascii.eqb c sep then EmptyString :: split sep s'
      else match split sep s' with
           | h :: t => String c h :: t
           | [] => [String c EmptyString]
           end
  end.

(** [sep.join(l)] *)
Definition join (sep : string) (l : list string) : string := String.concat sep l.

(** [s.startswith(p)] *)
Definition startswith (p s : string) : bool := String.prefix p s.

(** [len(s)] *)
Definition len (s : string) : Z := Z.of_nat (String.length s).

(** [s[:n]] for [n >= 0] *)
Definition take (n : Z) (s : string) : string :=
  String.substring 0 (Z.to_nat n) s.

(** [l.append(x)] and [l.extend(l')], as the lists they leave. *)
Definition append {A} (l : list A) (x : A) : list A := List.app l [x].
Definition extend {A} (l l' : list A) : list A := List.app l l'.

(** [x in l] for a list of strings. *)
Definition mem (x : string) (l : list string) : bool := existsb (String.eqb x) l.

(** [int(s)] on ASCII text: optional surrounding whitespace, an optional sign,
    then decimal digits, single underscores allowed between digits.  [None]
    stands for [ValueError]. *)
Definition digit_val (c : ascii) : option Z :=
  let n := nat_of_ascii c in
  if (48 <=? n)%nat && (n <=? 57)%nat then Some (Z.of_nat (n - 48)) else None.

Fixpoint digits (prev_digit : bool) (acc : Z) (s : string) : option Z :=
  match s with
  | EmptyString => if prev_digit then Some acc else None
  | String c s' =>
      match digit_val c with
      | Some d => digits true (10 * acc + d) s'
      | None =>
          if Ascii.eqb c "_"%char && prev_digit then
            match s' with
            | EmptyString => None
            | String c' _ =>
                match digit_val c' with
                | Some _ => digits false acc s'
                | None => None
                end
            end
          else None
      end
  end.

Definition int (s : string) : option Z :=
  match strip s with
  | String "-" r => option_map Z.opp (digits false 0 r)
  | String "+" r => digits false 0 r
  | r => digits false 0 r
  end.

End Py.

(** ** Values decoded from JSON *)

(** What [json.loads] builds.  Numbers are the integers; an object is the
    list of its (distinct) keys with their values. *)
#[warnings="-register-all"] Inductive json : Type :=
| JNull
| JBool (b : bool)
| JNum (n : Z)
| JStr (s : string)
| JArr (items : list json)
| JObj (fields : list (string * json)).

(** ** Exceptions and outcomes *)

(** The exception classes the code distinguishes, each with the text [str(e)]
    gives; [CalledProcessError] also carries the captured [stderr]. *)
Inductive exn : Type :=
| CalledProcessError (msg stderr : string)
| FileNotFoundError (msg : string)
| TypeError (msg : string)
| AttributeError (msg : string)
| ValueError (msg : string)
| IndexError (msg : string)
| OtherException (msg : string).

Definition exn_str (e : exn) : string :=
  match e with
  | CalledProcessError m _ => m
  | FileNotFoundError m | TypeError m | AttributeError m
  | ValueError m | IndexError m | OtherException m => m
  end.

Inductive result (A : Type) : Type :=
| Ok (a : A)
| Raise (e : exn).
Arguments Ok {A} a.
Arguments Raise {A} e.

(** ** Transcript *)

Record tool_call : Type := {
  tc_id : string;
  tc_name : string;
  (** [json.loads(tool_call.function.arguments)]; [None] when the text is not
      JSON ([JSONDecodeError]). *)
  tc_arguments : option json
}.

(** [response.choices[i].message]; a [tool_calls] of [None] is the empty
    list (both are falsy and nothing else reads them). *)
Record assistant_message : Type := {
  content : option string;
  tool_calls : list tool_call
}.

Inductive message : Type :=
| MSystem (text : string)
| MUser (text : string)
| MAssistant (m : assistant_message)
| MTool (tool_call_id : string) (text : string).

(** ** Environment *)

Inductive event : Type :=
| EGit (argv : list string)          (* subprocess.run(argv, check=True, ...) *)
| EOpen (path : json)                (* open(path, "r").read() *)
| EChat (messages : list message).   (* client.chat.completions.create(...) *)

Definition log := list event.

Record World : Type := {
  getenv : string -> option string;
  (** stdout of the process, or the exception [subprocess.run] raises *)
  subprocess_run : log -> list string -> result string;
  open_read : log -> json -> result string;
  (** the [choices] of the response, as their messages *)
  chat_create : log -> list message -> result (list assistant_message)
}.

Class Runtime : Type := {
  unquote : string -> string;         (* urllib.parse.unquote *)
  as_posix : string -> string;        (* pathlib.Path(p).as_posix() *)
  py_str : json -> string;            (* str(v), v not a str *)
  set_iter : list string -> list string   (* iteration order of set(l) *)
}.

(** [set(l)] holds the elements of [l] once each. *)
Definition set_iter_ok (RT : Runtime) : Prop :=
  forall l, NoDup (set_iter l) /\ forall x, In x (set_iter l) <-> In x l.

(** ** The monad: a log of events and exceptions *)

Definition M (A : Type) : Type := log -> result A * log.

Definition ret {A} (a : A) : M A := fun h => (Ok a, h).

Definition raise {A} (e : exn) : M A := fun h => (Raise e, h).

Definition bind {A B} (m : M A) (k : A -> M B) : M B :=
  fun h =>
    match m h with
    | (Ok a, h') => k a h'
    | (Raise e, h') => (Raise e, h')
    end.

(** [try: m  except <classes handled by handler> as e: ...]; a [None] from
    the handler means the exception is not caught by any clause. *)
Definition try_except {A} (m : M A) (handler : exn -> option (M A)) : M A :=
  fun h =>
    match m h with
    | (Ok a, h') => (Ok a, h')
    | (Raise e, h') =>
        match handler e with
        | Some k => k h'
        | None => (Raise e, h')
        end
    end.

Definition lift {A} (r : result A) : M A := fun h => (r, h).

Declare Scope monad_scope.
Delimit Scope monad_scope with monad.
Notation "x <- m ;; k" := (bind m (fun x => k))
  (at level 100, m at next level, right associativity) : monad_scope.
Notation "' p <- m ;; k" := (bind m (fun x => match x with p => k end))
  (at level 100, p pattern, m at next level, right associativity) : monad_scope.
Open Scope monad_scope.

(** Number of chat-completion requests in a log. *)
Definition is_chat (e : event) : bool :=
  match e with EChat _ => true | _ => false end.
Definition chat_rounds (h : log) : nat := length (filter is_chat h).
Definition git_calls (h : log) : list (list string) :=
  flat_map (fun e => match e with EGit a => [a] | _ => [] end) h.

Fixpoint foldM {A B} (f : A -> B -> M A) (l : list B) (a : A) : M A :=
  match l with
  | [] => ret a
  | b :: l' => a' <- f a b ;; foldM f l' a'
  end.

(** ** Regular expressions of the link resolver

    Both patterns are deterministic: every repetition is followed by a
    character it excludes, so Python's backtracking search finds, at a given
    start, the match read off greedily here or none. *)

Fixpoint drop_prefix (p s : string) : option string :=
  match p, s with
  | EmptyString, _ => Some s
  | String a p', String b s' => if Ascii.eqb a b then drop_prefix p' s' else None
  | String _ _, EmptyString => None
  end.

(** The longest run of characters other than [stop], and what follows it. *)
Fixpoint span_not (stop : ascii) (s : string) : string * string :=
  match s with
  | EmptyString => (EmptyString, EmptyString)
  | String c s' =>
      if Ascii.eqb c stop then (EmptyString, s)
      else let (g, r) := span_not stop s' in (String c g, r)
  end.

(** Every character of [s] is whitespace. *)
Fixpoint all_space (s : string) : bool :=
  match s with
  | EmptyString => true
  | String c s' => Py.is_space c && all_space s'
  end.

(** The character [x] does not occur in [s]. *)
Fixpoint lacks (x : ascii) (s : string) : bool :=
  match s with
  | EmptyString => true
  | String c s' => negb (Ascii.eqb c x) && lacks x s'
  end.

(** The render-diff pattern anchored at the start of [s]: the word
    [render_diffs], optional whitespace, an opening parenthesis, optional
    whitespace, [file:///], group 1 (one or more characters other than a
    closing parenthesis), optional whitespace and a closing parenthesis.
    Returns group 1 and the text after the match.  Group 1 is greedy, so
    whitespace before the closing parenthesis belongs to it. *)
Definition match_render_diffs (s : string) : option (string * string) :=
  match drop_prefix "render_diffs" s with
  | None => None
  | Some s1 =>
      match drop_prefix "(" (Py.lstrip s1) with
      | None => None
      | Some s2 =>
          match drop_prefix "file:///" (Py.lstrip s2) with
          | None => None
          | Some s3 =>
              let (g, r) := span_not ")" s3 in
              match g, drop_prefix ")" r with
              | String _ _, Some rest => Some (g, rest)
              | _, _ => None
              end
          end
      end
  end.

(** The markdown-link pattern anchored at the start of [s]: an opening
    bracket, group 1 (characters other than a closing bracket), a closing
    bracket, an opening parenthesis, [file:///], group 2 (one or more
    characters other than a closing parenthesis) and a closing parenthesis.
    Returns group 2 and the text after the match. *)
Definition match_link (s : string) : option (string * string) :=
  match drop_prefix "[" s with
  | None => None
  | Some s1 =>
      let (_, r1) := span_not "]" s1 in
      match drop_prefix "](file:///" r1 with
      | None => None
      | Some s2 =>
          let (g, r) := span_not ")" s2 in
          match g, drop_prefix ")" r with
          | String _ _, Some rest => Some (g, rest)
          | _, _ => None
          end
      end
  end.

(** A scanned text: characters outside matches and, for each match, its
    group. *)
Inductive piece : Type :=
| Lit (c : ascii)
| Hit (group : string).

(** The leftmost, non-overlapping matches of an anchored matcher, as [re]
    finds them; [skip] counts the characters of the current match still to
    pass. *)
Fixpoint scan (match_at : string -> option (string * string))
    (skip : nat) (s : string) : list piece :=
  match s with
  | EmptyString => []
  | String c s' =>
      match skip with
      | S k => scan match_at k s'
      | O =>
          match match_at s with
          | Some (g, rest) =>
              Hit g :: scan match_at (String.length s' - String.length rest) s'
          | None => Lit c :: scan match_at 0 s'
          end
      end
  end.

(** [[m.group(i) for m in re.finditer(pattern, s)]] *)
Definition finditer (match_at : string -> option (string * string))
    (s : string) : list string :=
  flat_map (fun p => match p with Hit g => [g] | Lit _ => [] end)
           (scan match_at 0 s).

(** No match of the matcher starts inside [pre] when [pre] is followed by
    [tail]. *)
Fixpoint unmatched_before (match_at : string -> option (string * string))
    (pre tail : string) : bool :=
  match pre with
  | EmptyString => true
  | String _ pre' =>
      match match_at (pre ++ tail) with
      | Some _ => false
      | None => unmatched_before match_at pre' tail
      end
  end.

(** [re.sub(pattern, repl, s)] with a function [repl] of the group. *)
Definition re_sub (match_at : string -> option (string * string))
    (repl : string -> M string) (s : string) : M string :=
  foldM (fun out p =>
           match p with
           | Lit c => ret (out ++ String c EmptyString)
           | Hit g => r <- repl g ;; ret (out ++ r)
           end)
        (scan match_at 0 s) EmptyString.

Section Reviewer.

Context {RT : Runtime} (W : World).

(** *** Calls into the environment *)

Definition run_git (argv : list string) : M string :=
  fun h => (subprocess_run W h argv, Py.append h (EGit argv)).

Definition open_file (path : json) : M string :=
  fun h => (open_read W h path, Py.append h (EOpen path)).

Definition chat (messages : list message) : M (list assistant_message) :=
  fun h => (chat_create W h messages, Py.append h (EChat messages)).

(** *** VersionControlAdapter *)

Definition EXCLUDE_PATTERNS : list string :=
  [ "*.lock"; "*.json"; "*.svg"; "*.png"; "*.jpg"; "*.woff"; "*.woff2";
    "uv.lock"; "package-lock.json"; "yarn.lock"; "pnpm-lock.yaml" ].

Definition git_diff_args (target : string) : list string :=
  let args :=
    if target =? "staged" then ["git"; "diff"; "--staged"]
    else if target =? "unstaged" then ["git"; "diff"]
    else ["git"; "diff"; target] in
  fold_left (fun args pattern => Py.extend args ["--"; ":!" ++ pattern])
            EXCLUDE_PATTERNS args.

Definition get_git_diff (target : string) : M string :=
  try_except (run_git (git_diff_args target))
    (fun e =>
       match e with
       | CalledProcessError _ stderr =>
           Some (ret ("Error running git diff: " ++ stderr))
       | FileNotFoundError _ =>
           Some (ret "Error: git is not installed or not in PATH")
       | _ => None
       end).

Definition get_changed_files : M (list string) :=
  try_except
    (staged <- run_git ["git"; "diff"; "--staged"; "--name-only"] ;;
     unstaged <- run_git ["git"; "diff"; "--name-only"] ;;
     let files :=
       set_iter (Py.extend (Py.split Py.LF (Py.strip staged))
                           (Py.split Py.LF (Py.strip unstaged))) in
     ret (filter Py.truthy files))
    (fun e =>
       match e with
       | CalledProcessError _ _ => Some (ret [])
       | _ => None
       end).

Definition scoped_diff_args (target normalized : string) : list string :=
  if target =? "staged" then ["git"; "diff"; "--staged"; "--"; normalized]
  else if target =? "unstaged" then ["git"; "diff"; "--"; normalized]
  else ["git"; "diff"; target; "--"; normalized].

(** One turn of the loop of [get_scoped_diff]. *)
Definition scoped_diff_step (target : string) (diffs : list string)
    (filepath : string) : M (list string) :=
  try_except
    (stdout <- run_git (scoped_diff_args target (as_posix filepath)) ;;
     if Py.truthy (Py.strip stdout)
     then ret (Py.append diffs
                ("# Diff for: " ++ filepath ++ Py.nl ++ stdout))
     else ret diffs)
    (fun e =>
       match e with
       | CalledProcessError _ _ =>
           Some (ret (Py.append diffs ("# No diff available for: " ++ filepath)))
       | _ =>
           Some (ret (Py.append diffs
                        ("# Error getting diff for " ++ filepath
                         ++ ": " ++ exn_str e)))
       end).

Definition get_scoped_diff (files : list string) (target : string) : M string :=
  match files with
  | [] => ret EmptyString
  | _ =>
      diffs <- foldM (scoped_diff_step target) files [] ;;
      ret (Py.join Py.nlnl diffs)
  end.

(** *** LinkResolver *)

Definition normalize_file_uri_path (path : string) : string :=
  if (1 <? String.length path)%nat
     && match String.get 1 path with
        | Some c => Ascii.eqb c ":"
        | None => false
        end
  then path
  else if negb (Py.startswith "/" path) then "/" ++ path
  else path.

Definition parse_file_links (content : string) : list string * list string :=
  let diff_files :=
    fold_left (fun diff_files g =>
                 Py.append diff_files (normalize_file_uri_path (unquote g)))
              (finditer match_render_diffs content) [] in
  let read_files :=
    fold_left (fun read_files g =>
                 let full_path := normalize_file_uri_path (unquote g) in
                 if negb (Py.mem full_path diff_files)
                 then Py.append read_files full_path
                 else read_files)
              (finditer match_link content) [] in
  (diff_files, read_files).

(** *** ArtifactProcessor *)

Definition replace_render_diff (diff_target : string) (g : string) : M string :=
  let full_path := normalize_file_uri_path (unquote g) in
  file_diff <- get_scoped_diff [full_path] diff_target ;;
  if Py.truthy file_diff
  then ret ("```diff" ++ Py.nl ++ file_diff ++ Py.nl ++ "```")
  else ret ("(No changes in " ++ full_path ++ ")").

Definition linked_file_step (linked_context : string) (read_path : string)
    : M string :=
  try_except
    (file_content <- open_file (JStr read_path) ;;
     let file_content :=
       if (10000 <? Py.len file_content)%Z
       then Py.take 10000 file_content ++ Py.nl ++ "... [TRUNCATED]"
       else file_content in
     ret (linked_context ++ Py.nlnl ++ "--- LINKED FILE: " ++ read_path
          ++ " ---" ++ Py.nl ++ file_content))
    (fun _ => Some (ret linked_context)).

Definition process_artifact_with_links (filepath diff_target : string)
    : M (string * string) :=
  opened <- try_except
              (content <- open_file (JStr filepath) ;; ret (Some content))
              (fun e =>
                 match e with
                 | FileNotFoundError _ => Some (ret None)
                 | _ => None
                 end) ;;
  match opened with
  | None => ret ("(Artifact not found: " ++ filepath ++ ")", EmptyString)
  | Some content =>
      let (diff_files, read_files) := parse_file_links content in
      scoped_diff <- get_scoped_diff diff_files diff_target ;;
      processed <- re_sub match_render_diffs
                     (replace_render_diff diff_target) content ;;
      linked_context <- foldM linked_file_step (firstn 5 read_files)
                          EmptyString ;;
      ret (processed ++ linked_context, scoped_diff)
  end.

(** *** ToolRegistry *)

Definition type_name (v : json) : string :=
  match v with
  | JNull => "NoneType"
  | JBool _ => "bool"
  | JNum _ => "int"
  | JStr _ => "str"
  | JArr _ => "list"
  | JObj _ => "dict"
  end.

(** [arguments.get(key, default)]: only a [dict] has the method. *)
Definition dict_get (arguments : json) (key : string) (default : json)
    : result json :=
  match arguments with
  | JObj fields =>
      match find (fun kv => fst kv =? key) fields with
      | Some (_, v) => Ok v
      | None => Ok default
      end
  | _ => Raise (AttributeError ("'" ++ type_name arguments
                                ++ "' object has no attribute 'get'"))
  end.

(** [for x in v]: the members of a list, the characters of a string, the
    keys of a dict; nothing else iterates. *)
Definition py_iter (v : json) : result (list json) :=
  match v with
  | JArr items => Ok items
  | JStr s =>
      Ok (map (fun c => JStr (String c EmptyString)) (list_ascii_of_string s))
  | JObj fields => Ok (map (fun kv => JStr (fst kv)) fields)
  | _ => Raise (TypeError ("'" ++ type_name v ++ "' object is not iterable"))
  end.

(** [f"{v}"] *)
Definition fmt (v : json) : string :=
  match v with
  | JStr s => s
  | _ => py_str v
  end.

(** One turn of the loop of [read_context_files]. *)
Definition read_context_step (context : string) (filepath : json) : M string :=
  try_except
    (content <- open_file filepath ;;
     let content :=
       if (50000 <? Py.len content)%Z
       then Py.take 50000 content ++ Py.nlnl ++ "... [TRUNCATED] ..."
       else content in
     ret (context ++ Py.nlnl ++ "--- FILE: " ++ fmt filepath ++ " ---"
          ++ Py.nl ++ content))
    (fun e =>
       match e with
       | FileNotFoundError _ =>
           Some (ret (context ++ Py.nlnl ++ "(Note: Context file '"
                      ++ fmt filepath ++ "' not found)" ++ Py.nl))
       | _ =>
           Some (ret (context ++ Py.nlnl ++ "(Error reading '"
                      ++ fmt filepath ++ "': " ++ exn_str e ++ ")" ++ Py.nl))
       end).

Definition read_context_files (filepaths : json) : M string :=
  items <- lift (py_iter filepaths) ;;
  foldM read_context_step items EmptyString.

Definition _execute_tool (name : string) (arguments : json) : M string :=
  if name =? "get_uncommitted_changes" then
    target <- lift (dict_get arguments "target" (JStr "staged")) ;;
    match target with
    | JStr target => get_git_diff target
    | _ =>
        (* a member of argv that is not a str: subprocess.run raises before
           any process is started, and get_git_diff does not catch it *)
        raise (TypeError ("expected str, bytes or os.PathLike object, not "
                          ++ type_name target))
    end
  else if name =? "read_files" then
    paths <- lift (dict_get arguments "paths" (JArr [])) ;;
    read_context_files paths
  else if name =? "read_file" then
    (* Backwards compatibility *)
    path <- lift (dict_get arguments "path" (JStr EmptyString)) ;;
    read_context_files (JArr [path])
  else if name =? "list_changed_files" then
    files <- get_changed_files ;;
    match files with
    | [] => ret "No changed files found."
    | _ => ret (Py.join Py.nl files)
    end
  else
    ret ("Unknown tool: " ++ name).

(** The names declared in [REVIEWER_TOOLS]. *)
Definition REVIEWER_TOOLS : list string :=
  ["get_uncommitted_changes"; "read_files"; "list_changed_files"].

(** *** ReviewOrchestrator *)

Definition default_artifacts : list string :=
  ["implementation_plan.md"; "task.md"; "walkthrough.md"].

(** One turn of the artifact loop of [run_agentic_review]; the accumulator
    is [(artifact_context, all_diff_files)]. *)
Definition load_artifact (diff_target : string)
    (acc : string * list string) (artifact : string)
    : M (string * list string) :=
  let (artifact_context, all_diff_files) := acc in
  opened <- try_except
              (content <- open_file (JStr artifact) ;; ret (Some content))
              (fun _ => Some (ret None)) ;;
  match opened with
  | None => ret (artifact_context, all_diff_files)
  | Some content =>
      let (diff_files, _) := parse_file_links content in
      let all_diff_files := Py.extend all_diff_files diff_files in
      try_except
        (' (processed_content, _) <-
           process_artifact_with_links artifact diff_target ;;
         ret (artifact_context ++ Py.nlnl ++ "--- ARTIFACT: " ++ artifact
              ++ " ---" ++ Py.nl ++ processed_content,
              all_diff_files))
        (fun _ => Some (ret (artifact_context, all_diff_files)))
  end.

Definition load_artifacts (diff_target : string)
    (context_files : option (list string)) : M (string * list string) :=
  let artifacts_to_read :=
    Py.extend default_artifacts
              (match context_files with Some l => l | None => [] end) in
  foldM (load_artifact diff_target) artifacts_to_read (EmptyString, []).

(** Priority: focus_files > files from artifacts > none. *)
Definition select_files_to_diff (focus_files : option (list string))
    (all_diff_files : list string) : option (list string) :=
  match focus_files with
  | Some ((_ :: _) as focus) => Some focus
  | _ =>
      match all_diff_files with
      | _ :: _ => Some all_diff_files
      | [] => None
      end
  end.

(** [(diff_content, changed_files)] *)
Definition prefetch_diff (files_to_diff : option (list string))
    (diff_target : string) : M (string * list string) :=
  match files_to_diff with
  | Some ((_ :: _) as files) =>
      diff_content <- get_scoped_diff files diff_target ;;
      ret (diff_content, files)
  | _ => ret (EmptyString, [])
  end.

Definition system_prompt : string :=
"You are a Senior Code Reviewer with access to tools.

Your job is to review code changes. You have access to these tools:
- get_uncommitted_changes: Get git diffs (staged, unstaged, or vs specific refs)
- read_files: Read multiple source files at once (efficient - use this to batch file reads)
- list_changed_files: See which files have been modified

The user will provide you with context about what to review. Use your tools
to gather any additional information you need. Be efficient - batch file reads together.

REVIEW FOCUS:
1. Does the code match the stated intent (if provided)?
2. Are there logic errors, bugs, or security risks?
3. Any missed requirements?
4. Does it follow best practices?

Be concise but thorough. Ignore minor style issues.".

Definition build_user_message (task_description artifact_context : string)
    (changed_files : list string) (diff_content diff_target : string)
    : string :=
  let sections := [] in
  let sections :=
    if Py.truthy task_description
    then Py.append sections ("## Task Description" ++ Py.nl ++ task_description)
    else sections in
  let sections :=
    if Py.truthy (Py.strip artifact_context)
    then Py.append sections ("## Project Artifacts" ++ Py.nl ++ artifact_context)
    else sections in
  let sections :=
    match changed_files with
    | _ :: _ =>
        Py.append sections
          ("## Files to Review" ++ Py.nl ++ Py.join Py.nl changed_files)
    | [] => sections
    end in
  let sections :=
    if Py.truthy (Py.strip diff_content)
    then Py.append sections
           ("## Git Diff (" ++ diff_target ++ ")" ++ Py.nl ++ "```diff"
            ++ Py.nl ++ diff_content ++ Py.nl ++ "```")
    else sections in
  match sections with
  | _ :: _ =>
      "Please review the following:" ++ Py.nlnl ++ Py.join Py.nlnl sections
      ++ Py.nlnl ++ "---" ++ Py.nl
      ++ "Provide a thorough code review. Use your tools if you need more information."
  | [] =>
      "Please review the current code changes. Use list_changed_files and get_uncommitted_changes to see what's been modified."
  end.

(** One tool call of a model turn: decode, dispatch, append the result. *)
Definition run_tool_call (messages : list message) (tc : tool_call)
    : M (list message) :=
  let func_args :=
    match tc_arguments tc with
    | Some args => args
    | None => JObj []
    end in
  result <- _execute_tool (tc_name tc) func_args ;;
  ret (Py.append messages (MTool (tc_id tc) result)).

Definition iteration_exceeded : string :=
  "Error: Maximum iterations reached without completing review.".

(** [for iteration in range(n): ...] followed by the final [return]. *)
Fixpoint review_loop (n : nat) (messages : list message) : M string :=
  match n with
  | O => ret iteration_exceeded
  | S n' =>
      response <- try_except
                    (choices <- chat messages ;; ret (inl choices))
                    (fun e =>
                       Some (ret (inr ("Error calling GLM-4.7 API: "
                                       ++ exn_str e)))) ;;
      match response with
      | inr error_text => ret error_text
      | inl choices =>
          match choices with
          | [] => raise (IndexError "list index out of range")
          | message :: _ =>
              match tool_calls message with
              | [] =>
                  match content message with
                  | Some ((String _ _) as text) => ret text
                  | _ => ret "No review generated."
                  end
              | calls =>
                  messages <- foldM run_tool_call calls
                                (Py.append messages (MAssistant message)) ;;
                  review_loop n' messages
              end
          end
      end
  end.

(** [int(os.getenv("MAX_REVIEW_ITERATIONS", "10"))] *)
Definition max_iterations : result Z :=
  let text :=
    match getenv W "MAX_REVIEW_ITERATIONS" with
    | Some v => v
    | None => "10"
    end in
  match Py.int text with
  | Some n => Ok n
  | None => Raise (ValueError ("invalid literal for int() with base 10: '"
                               ++ text ++ "'"))
  end.

Definition initial_messages (user_message : string) : list message :=
  [MSystem system_prompt; MUser user_message].

(** Everything [run_agentic_review] does between the credential check and
    the loop, except reading the iteration cap: the transcript the first
    request carries. *)
Definition prepare_messages (diff_target : string)
    (context_files focus_files : option (list string))
    (task_description : string) : M (list message) :=
  ' (artifact_context, all_diff_files) <-
    load_artifacts diff_target context_files ;;
  let files_to_diff := select_files_to_diff focus_files all_diff_files in
  ' (diff_content, changed_files) <-
    prefetch_diff files_to_diff diff_target ;;
  ret (initial_messages
         (build_user_message task_description artifact_context changed_files
                             diff_content diff_target)).

Definition missing_credential : string :=
  "Error: ZHIPU_API_KEY environment variable is not set.".

Definition run_agentic_review (diff_target : string)
    (context_files focus_files : option (list string))
    (task_description : string) : M string :=
  match getenv W "ZHIPU_API_KEY" with
  | Some (String _ _) =>
      messages <- prepare_messages diff_target context_files focus_files
                                   task_description ;;
      max_iterations <- lift max_iterations ;;
      review_loop (Z.to_nat max_iterations) messages
  | _ => ret missing_credential
  end.

(** *** server.py *)

(** The parameters [def run_agentic_review(...)] declares. *)
Definition run_agentic_review_parameters : list string :=
  ["diff_target"; "context_files"; "focus_files"; "task_description"].

(** A call [f(k1=..., k2=..., ...)]: a keyword that names no parameter of
    [f] is a [TypeError] raised before the body runs. *)
Definition call_with_keywords {A} (fname : string) (parameters : list string)
    (keywords : list string) (body : M A) : M A :=
  match find (fun k => negb (Py.mem k parameters)) keywords with
  | Some k =>
      raise (TypeError (fname ++ "() got an unexpected keyword argument '"
                        ++ k ++ "'"))
  | None => body
  end.

(** [anyio.to_thread.run_sync] hands back what the function returns or
    raises. *)
Definition review_with_context (diff_target : string)
    (context_files focus_files : option (list string))
    (task_description : string) : M string :=
  call_with_keywords "run_agentic_review" run_agentic_review_parameters
    ["working_dir"; "diff_target"; "context_files"; "focus_files";
     "task_description"]
    (run_agentic_review diff_target context_files focus_files
                        task_description).

(** *** Descriptions the theorems compare the code with *)

(** The section of a scoped diff that one path contributes, given what its
    [git diff] call answers at log [h]: the diff under its header when the
    output is not blank, nothing when it is blank, a no-diff marker when git
    exits with an error, an error line for any other exception. *)
Definition section_of (target filepath : string) (h : log) : list string :=
  match subprocess_run W h (scoped_diff_args target (as_posix filepath)) with
  | Ok stdout =>
      if Py.truthy (Py.strip stdout)
      then ["# Diff for: " ++ filepath ++ Py.nl ++ stdout]
      else []
  | Raise (CalledProcessError _ _) => ["# No diff available for: " ++ filepath]
  | Raise e => ["# Error getting diff for " ++ filepath ++ ": " ++ exn_str e]
  end.

(** The events a scoped diff of [files] adds to the log: one [git diff] per
    path, in order. *)
Definition scoped_events (target : string) (files : list string) : log :=
  map (fun f => EGit (scoped_diff_args target (as_posix f))) files.

(** The sections of a scoped diff of [files] started at log [h], in order. *)
Fixpoint sections_of (target : string) (files : list string) (h : log)
    : list string :=
  match files with
  | [] => []
  | f :: fs =>
      List.app (section_of target f h)
               (sections_of target fs
                  (Py.append h (EGit (scoped_diff_args target (as_posix f)))))
  end.

(** The diff-directive files of the artifacts, in the order the artifacts
    are read: for each artifact that can be read when its turn comes, the
    directive paths of its text. *)
Fixpoint artifact_diff_files (diff_target : string) (artifacts : list string)
    (h : log) : list string :=
  match artifacts with
  | [] => []
  | a :: rest =>
      List.app
        (match open_read W h (JStr a) with
         | Ok text => fst (parse_file_links text)
         | Raise _ => []
         end)
        (artifact_diff_files diff_target rest
           (snd (load_artifact diff_target (EmptyString, []) a h)))
  end.

(** The model asks for at least one tool on every round. *)
Definition always_requests_tools : Prop :=
  forall h messages,
    exists m ms, chat_create W h messages = Ok (m :: ms) /\ tool_calls m <> [].

(** No tool call the model can ask for raises when it is dispatched. *)
Definition requested_tools_return : Prop :=
  forall h messages m ms tc,
    chat_create W h messages = Ok (m :: ms) ->
    In tc (tool_calls m) ->
    forall messages' h', exists messages'' h'',
      run_tool_call messages' tc h' = (Ok messages'', h'').

End Reviewer.

(** ** A concrete runtime and concrete worlds

    Used to run the embedding on explicit inputs. *)

Definition hex_val (c : ascii) : option nat :=
  let n := nat_of_ascii c in
  if (48 <=? n)%nat && (n <=? 57)%nat then Some (n - 48)
  else if (65 <=? n)%nat && (n <=? 70)%nat then Some (n - 55)
  else if (97 <=? n)%nat && (n <=? 102)%nat then Some (n - 87)
  else None.

(** Percent-decoding as [urllib.parse.unquote] does it when every escape
    decodes to an ASCII character: [%XX] with two hexadecimal digits becomes
    the character [XX]; any other [%] stays. *)
Fixpoint unquote_ascii (s : string) : string :=
  match s with
  | EmptyString => EmptyString
  | String c s' =>
      if Ascii.eqb c "%" then
        match s' with
        | String a (String b r) =>
            match hex_val a, hex_val b with
            | Some x, Some y => String (ascii_of_nat (16 * x + y)) (unquote_ascii r)
            | _, _ => String c (unquote_ascii s')
            end
        | _ => String c (unquote_ascii s')
        end
      else String c (unquote_ascii s')
  end.

(** [PurePosixPath(p).as_posix()]: empty and [.] components dropped, a root
    of one slash (or exactly two) kept, [.] for the empty path. *)
Definition posix_as_posix (p : string) : string :=
  let root :=
    if Py.startswith "///" p then "/"
    else if Py.startswith "//" p then "//"
    else if Py.startswith "/" p then "/"
    else EmptyString in
  let parts :=
    filter (fun c => negb (c =? EmptyString) && negb (c =? "."))
           (Py.split "/" p) in
  match root ++ Py.join "/" parts with
  | EmptyString => "."
  | r => r
  end.

(** [str(v)] for scalars; containers print their members without the
    escapes [repr] adds to unusual strings. *)
Fixpoint simple_str (v : json) : string :=
  match v with
  | JNull => "None"
  | JBool true => "True"
  | JBool false => "False"
  | JNum n => NilEmpty.string_of_int (Z.to_int n)
  | JStr s => "'" ++ s ++ "'"
  | JArr items => "[" ++ Py.join ", " (map simple_str items) ++ "]"
  | JObj fields =>
      "{" ++ Py.join ", "
               (map (fun kv => let '(k, x) := kv in
                               "'" ++ k ++ "': " ++ simple_str x) fields)
      ++ "}"
  end.

Definition posix_runtime : Runtime := {|
  unquote := unquote_ascii;
  as_posix := posix_as_posix;
  py_str := simple_str;
  set_iter := nodup string_dec
|}.

Definition env_with_key (name : string) : option string :=
  if name =? "ZHIPU_API_KEY" then Some "secret" else None.

Definition no_such_file (path : json) : exn :=
  FileNotFoundError ("[Errno 2] No such file or directory: "
                     ++ simple_str path).

Definition only_choice (text : option string) (calls : list tool_call)
    : result (list assistant_message) :=
  Ok [ {| content := text; tool_calls := calls |} ].

(** A clean working tree without artifacts; the model answers at once. *)
Definition world_answers (text : option string) : World := {|
  getenv := env_with_key;
  subprocess_run := fun _ _ => Ok EmptyString;
  open_read := fun _ path => Raise (no_such_file path);
  chat_create := fun _ _ => only_choice text []
|}.

(** The same tree with a model that asks for [call] on every round. *)
Definition world_requests (call : tool_call) : World := {|
  getenv := env_with_key;
  subprocess_run := fun _ _ => Ok EmptyString;
  open_read := fun _ path => Raise (no_such_file path);
  chat_create := fun _ _ => only_choice None [call]
|}.

Definition call_list_changed_files : tool_call := {|
  tc_id := "call_1";
  tc_name := "list_changed_files";
  tc_arguments := Some (JObj [])
|}.

(** A request whose arguments are the JSON text [[]]. *)
Definition call_read_files_array : tool_call := {|
  tc_id := "call_1";
  tc_name := "read_files";
  tc_arguments := Some (JArr [])
|}.

(** No credential in the environment. *)
Definition world_no_credential : World := {|
  getenv := fun _ => None;
  subprocess_run := fun _ _ => Ok EmptyString;
  open_read := fun _ path => Raise (no_such_file path);
  chat_create := fun _ _ => only_choice None [call_list_changed_files]
|}.

(** No [git] executable on the PATH. *)
Definition world_no_git : World := {|
  getenv := env_with_key;
  subprocess_run :=
    fun _ _ => Raise (FileNotFoundError
                        "[Errno 2] No such file or directory: 'git'");
  open_read := fun _ path => Raise (no_such_file path);
  chat_create := fun _ _ => only_choice None [call_list_changed_files]
|}.

(** Every path is a directory. *)
Definition world_directories : World := {|
  getenv := env_with_key;
  subprocess_run := fun _ _ => Ok EmptyString;
  open_read :=
    fun _ path => Raise (OtherException
                           ("[Errno 21] Is a directory: " ++ simple_str path));
  chat_create := fun _ _ => only_choice (Some "ok") []
|}.

(** [task.md] holds one diff directive; [git diff] prints a change for every
    path. *)
Definition world_task_artifact : World := {|
  getenv := env_with_key;
  subprocess_run := fun _ _ => Ok "+changed";
  open_read :=
    fun _ path =>
      match path with
      | JStr "task.md" => Ok "See render_diffs(file:///src/x.py)"
      | _ => Raise (no_such_file path)
      end;
  chat_create := fun _ _ => only_choice (Some "LGTM") []
|}.

(** ** Properties of computations *)

(** [m] sends no chat-completion request, whatever it returns or raises. *)
Definition quiet {A} (m : M A) : Prop :=
  forall h r h', m h = (r, h') -> chat_rounds h' = chat_rounds h.

(** [m] returns a value from every log: no exception leaves it. *)
Definition total {A} (m : M A) : Prop :=
  forall h, exists a h', m h = (Ok a, h').

(** The credential is present and not empty. *)
Definition has_credential (W : World) : Prop :=
  exists c key, getenv W "ZHIPU_API_KEY" = Some (String c key).

(** ** The one-shot review *)

Section Critique.

Context (W : World).

Definition critique_system_prompt : string :=
"You are a Senior Code Reviewer. Your goal is to verify if the code changes
match the intent described in the provided documentation.

1. If 'implementation_plan.md' is provided, check if the planned steps were actually executed.
2. If 'task.md' is provided, check for any missed requirements.
3. Highlight LOGIC errors, SECURITY risks, or potential BUGS.
4. Ignore minor style issues unless they impact readability significantly.
5. Be concise but thorough. Focus on what matters.".

Definition critique_user_prompt (diff context : string) : string :=
  "# CONTEXT ARTIFACTS" ++ Py.nl
  ++ (if Py.truthy context then context else "(No context files provided)")
  ++ Py.nlnl ++ "# CODE CHANGES (DIFF)" ++ Py.nl ++ "```diff" ++ Py.nl
  ++ (if Py.truthy diff then diff else "(No changes detected)")
  ++ Py.nl ++ "```" ++ Py.nlnl
  ++ "Based on the artifacts and diff above, provide a code review. If there are no issues, say so briefly.".

(** [generate_critique(diff, context)]: one request without tool
    declarations; the value is [message.content], which may be [None].  The
    [try] spans the request and the reading of the first choice. *)
Definition generate_critique (diff context : string) : M (option string) :=
  match getenv W "ZHIPU_API_KEY" with
  | Some (String _ _) =>
      try_except
        (choices <- chat W [MSystem critique_system_prompt;
                            MUser (critique_user_prompt diff context)] ;;
         match choices with
         | [] => raise (IndexError "list index out of range")
         | message :: _ => ret (content message)
         end)
        (fun e =>
           Some (ret (Some ("Error calling GLM-4.7 API: " ++ exn_str e))))
  | _ => ret (Some missing_credential)
  end.

End Critique.

(** ** Further descriptions and inputs *)

(** The transcripts of the chat-completion requests of a log, in order. *)
Definition chat_requests (h : log) : list (list message) :=
  flat_map (fun e => match e with EChat m => [m] | _ => [] end) h.

(** [m] adds no chat-completion request to the log, whatever it returns or
    raises. *)
Definition mute {A} (m : M A) : Prop :=
  forall h r h', m h = (r, h') -> chat_requests h' = chat_requests h.

(** The [tool_call_id] of a tool-result message. *)
Definition tool_result_id (m : message) : option string :=
  match m with
  | MTool id _ => Some id
  | _ => None
  end.

(** The requests a loop sends when it starts from the transcript [messages]:
    none, or [messages] itself followed by nothing more, or [messages]
    followed by the requests of a loop that starts from [messages] extended
    by the assistant message and one tool-result message per tool call of
    that message, in the order and with the identifiers of the calls. *)
Inductive transcript_run : list message -> list (list message) -> Prop :=
| run_none messages : transcript_run messages []
| run_stop messages : transcript_run messages [messages]
| run_round messages m results rest :
    map tool_result_id results = map (fun tc => Some (tc_id tc)) (tool_calls m) ->
    transcript_run (List.app messages (MAssistant m :: results)) rest ->
    transcript_run messages (messages :: rest).

(** [n] copies of the character [c]. *)
Fixpoint repeat_char (c : ascii) (n : nat) : string :=
  match n with
  | O => EmptyString
  | S n' => String c (repeat_char c n')
  end.

(** Staged changes in [a.py] and [b.py], unstaged ones in [b.py] and
    [c.py]. *)
Definition world_two_listings : World := {|
  getenv := env_with_key;
  subprocess_run :=
    fun _ argv =>
      if existsb (String.eqb "--staged") argv
      then Ok ("a.py" ++ Py.nl ++ "b.py" ++ Py.nl)
      else Ok ("b.py" ++ Py.nl ++ "c.py" ++ Py.nl);
  open_read := fun _ path => Raise (no_such_file path);
  chat_create := fun _ _ => only_choice (Some "LGTM") []
|}.

(** Not a git repository: the staged listing works from the index file of
    some other place, the unstaged one exits with an error. *)
Definition world_unstaged_fails : World := {|
  getenv := env_with_key;
  subprocess_run :=
    fun _ argv =>
      if existsb (String.eqb "--staged") argv
      then Ok ("a.py" ++ Py.nl)
      else Raise (CalledProcessError
                    "Command '['git', 'diff', '--name-only']' returned non-zero exit status 129."
                    "error: unknown option");
  open_read := fun _ path => Raise (no_such_file path);
  chat_create := fun _ _ => only_choice (Some "LGTM") []
|}.

(** [big.txt] holds 60000 characters, [notes.md] a line of plain text. *)
Definition world_files : World := {|
  getenv := env_with_key;
  subprocess_run := fun _ _ => Ok EmptyString;
  open_read :=
    fun _ path =>
      match path with
      | JStr "big.txt" => Ok (repeat_char "x" (Z.to_nat 60000))
      | JStr "notes.md" => Ok "Plain text, no links."
      | _ => Raise (no_such_file path)
      end;
  chat_create := fun _ _ => only_choice (Some "LGTM") []
|}.

(** The endpoint cannot be reached. *)
Definition world_endpoint_down : World := {|
  getenv := env_with_key;
  subprocess_run := fun _ _ => Ok EmptyString;
  open_read := fun _ path => Raise (no_such_file path);
  chat_create := fun _ _ => Raise (OtherException "Connection error.")
|}.

(** The endpoint answers with an empty list of choices. *)
Definition world_no_choices : World := {|
  getenv := env_with_key;
  subprocess_run := fun _ _ => Ok EmptyString;
  open_read := fun _ path => Raise (no_such_file path);
  chat_create := fun _ _ => Ok []
|}.


(** A request for the full-tree diff whose arguments are not JSON. *)
Definition call_diff_bad_json : tool_call := {|
  tc_id := "call_7";
  tc_name := "get_uncommitted_changes";
  tc_arguments := None
|}.

(** * Theorems *)

(** ** The monad *)

Lemma chat_rounds_app (h h' : log) :
  chat_rounds (h ++ h')%list = chat_rounds h + chat_rounds h'.
Proof.
  unfold chat_rounds. rewrite filter_app, length_app. reflexivity.
Qed.

Lemma chat_rounds_append (h : log) (e : event) :
  chat_rounds (Py.append h e) = chat_rounds h + (if is_chat e then 1 else 0).
Proof.
  unfold Py.append. rewrite chat_rounds_app. unfold chat_rounds. simpl.
  destruct (is_chat e); reflexivity.
Qed.

Lemma bind_eq {A B} (m : M A) (k : A -> M B) (h : log) :
  bind m k h
  = match m h with
    | (Ok a, h') => k a h'
    | (Raise e, h') => (Raise e, h')
    end.
Proof. reflexivity. Qed.

Lemma try_except_eq {A} (m : M A) (handler : exn -> option (M A)) (h : log) :
  try_except m handler h
  = match m h with
    | (Ok a, h') => (Ok a, h')
    | (Raise e, h') =>
        match handler e with
        | Some k => k h'
        | None => (Raise e, h')
        end
    end.
Proof. reflexivity. Qed.

Lemma quiet_ret {A} (a : A) : quiet (ret a).
Proof. intros h r h' E. inversion E. reflexivity. Qed.

Lemma quiet_raise {A} (e : exn) : quiet (@raise A e).
Proof. intros h r h' E. inversion E. reflexivity. Qed.

Lemma quiet_lift {A} (x : result A) : quiet (lift x).
Proof. intros h r h' E. inversion E. reflexivity. Qed.

Lemma quiet_bind {A B} (m : M A) (k : A -> M B) :
  quiet m -> (forall a, quiet (k a)) -> quiet (bind m k).
Proof.
  intros Hm Hk h r h' E. unfold bind in E.
  destruct (m h) as [[a | e] h1] eqn:Em.
  - rewrite (Hk a _ _ _ E). eapply Hm; eassumption.
  - inversion E; subst. eapply Hm; eassumption.
Qed.

Lemma quiet_try_except {A} (m : M A) (handler : exn -> option (M A)) :
  quiet m -> (forall e k, handler e = Some k -> quiet k) ->
  quiet (try_except m handler).
Proof.
  intros Hm Hk h r h' E. unfold try_except in E.
  destruct (m h) as [[a | e] h1] eqn:Em.
  - inversion E; subst. eapply Hm; eassumption.
  - destruct (handler e) as [k |] eqn:Eh.
    + rewrite (Hk e k Eh _ _ _ E). eapply Hm; eassumption.
    + inversion E; subst. eapply Hm; eassumption.
Qed.

Lemma quiet_foldM {A B} (f : A -> B -> M A) (l : list B) :
  (forall a b, quiet (f a b)) -> forall a, quiet (foldM f l a).
Proof.
  intros Hf. induction l as [| b l IH]; intros a; simpl.
  - apply quiet_ret.
  - apply quiet_bind; auto.
Qed.

Lemma total_ret {A} (a : A) : total (ret a).
Proof. intros h. exists a, h. reflexivity. Qed.

Lemma total_bind {A B} (m : M A) (k : A -> M B) :
  total m -> (forall a, total (k a)) -> total (bind m k).
Proof.
  intros Hm Hk h. destruct (Hm h) as (a & h1 & Em).
  destruct (Hk a h1) as (b & h2 & Ek).
  exists b, h2. unfold bind. rewrite Em. exact Ek.
Qed.

(** A [try] whose clauses catch every exception and themselves return. *)
Lemma total_try_except {A} (m : M A) (handler : exn -> option (M A)) :
  (forall e, exists k, handler e = Some k /\ total k) ->
  total (try_except m handler).
Proof.
  intros Hh h. unfold try_except.
  destruct (m h) as [[a | e] h1].
  - exists a, h1. reflexivity.
  - destruct (Hh e) as (k & Ek & Tk). rewrite Ek. apply Tk.
Qed.

Lemma total_foldM {A B} (f : A -> B -> M A) (l : list B) :
  (forall a b, total (f a b)) -> forall a, total (foldM f l a).
Proof.
  intros Hf. induction l as [| b l IH]; intros a; simpl.
  - apply total_ret.
  - apply total_bind; auto.
Qed.

Create HintDb effects.
#[export] Hint Resolve quiet_ret quiet_raise quiet_lift quiet_bind
  quiet_try_except quiet_foldM total_ret total_bind total_foldM : effects.

(** ** VersionControlAdapter *)

Section VersionControl.

Context {RT : Runtime} (W : World).

Lemma quiet_run_git (argv : list string) : quiet (run_git W argv).
Proof.
  intros h r h' E. unfold run_git in E. inversion E; subst.
  rewrite chat_rounds_append. simpl. lia.
Qed.

Lemma quiet_open_file (path : json) : quiet (open_file W path).
Proof.
  intros h r h' E. unfold open_file in E. inversion E; subst.
  rewrite chat_rounds_append. simpl. lia.
Qed.

Lemma scoped_diff_step_eq (target : string) (diffs : list string)
    (f : string) (h : log) :
  scoped_diff_step W target diffs f h
  = (Ok (diffs ++ section_of W target f h)%list,
     Py.append h (EGit (scoped_diff_args target (as_posix f)))).
Proof.
  unfold scoped_diff_step, section_of, try_except, bind, run_git, ret, Py.append.
  destruct (subprocess_run W h _) as [stdout | e].
  - destruct (Py.truthy (Py.strip stdout)); simpl;
      rewrite ?app_nil_r; reflexivity.
  - destruct e; reflexivity.
Qed.

Lemma foldM_scoped_diff_step (target : string) (files : list string) :
  forall diffs h,
    foldM (scoped_diff_step W target) files diffs h
    = (Ok (diffs ++ sections_of W target files h)%list,
       (h ++ scoped_events target files)%list).
Proof.
  induction files as [| f fs IH]; intros diffs h; simpl.
  - unfold ret. rewrite !app_nil_r. reflexivity.
  - unfold bind. rewrite scoped_diff_step_eq, IH.
    unfold Py.append. rewrite <- !app_assoc. reflexivity.
Qed.

Lemma get_scoped_diff_eq (files : list string) (target : string) (h : log) :
  get_scoped_diff W files target h
  = (Ok (Py.join Py.nlnl (sections_of W target files h)),
     (h ++ scoped_events target files)%list).
Proof.
  destruct files as [| f fs].
  - simpl. unfold ret. rewrite app_nil_r. reflexivity.
  - unfold get_scoped_diff, bind. rewrite foldM_scoped_diff_step.
    reflexivity.
Qed.

Lemma total_get_scoped_diff (files : list string) (target : string) :
  total (get_scoped_diff W files target).
Proof. intros h. rewrite get_scoped_diff_eq. eauto. Qed.

Lemma chat_rounds_scoped_events (target : string) (files : list string) :
  chat_rounds (scoped_events target files) = 0.
Proof.
  unfold chat_rounds, scoped_events.
  induction files as [| f fs IH]; simpl; auto.
Qed.

Lemma quiet_get_scoped_diff (files : list string) (target : string) :
  quiet (get_scoped_diff W files target).
Proof.
  intros h r h' E. rewrite get_scoped_diff_eq in E. inversion E; subst.
  rewrite chat_rounds_app, chat_rounds_scoped_events. lia.
Qed.

Lemma quiet_get_git_diff (target : string) : quiet (get_git_diff W target).
Proof.
  unfold get_git_diff. apply quiet_try_except.
  - apply quiet_run_git.
  - intros e k Hk. destruct e; inversion Hk; apply quiet_ret.
Qed.

Lemma quiet_get_changed_files : quiet (get_changed_files W).
Proof.
  unfold get_changed_files. apply quiet_try_except.
  - repeat (apply quiet_bind; [apply quiet_run_git | intros ?]).
    apply quiet_ret.
  - intros e k Hk. destruct e; inversion Hk; apply quiet_ret.
Qed.

End VersionControl.

(** C3 (as amended).  A scoped diff never raises.  It runs one [git diff]
    per path, in order, and returns the sections of the paths joined by a
    blank line, where a path contributes: its diff under [# Diff for: <path>]
    when the output is not blank; [# No diff available for: <path>] when git
    exits with an error; [# Error getting diff for <path>: <e>] when the call
    raises anything else; and no section at all when the output is blank.
    For the empty list it returns the empty string and runs nothing. *)
Theorem get_scoped_diff_sections :
  forall (RT : Runtime) (W : World) (files : list string) (target : string)
         (h : log),
    get_scoped_diff W files target h
    = (Ok (Py.join Py.nlnl (sections_of W target files h)),
       (h ++ scoped_events target files)%list)
    /\ get_scoped_diff W [] target h = (Ok EmptyString, h).
Proof.
  intros. split.
  - apply get_scoped_diff_eq.
  - reflexivity.
Qed.

(** C3 (as stated) fails: on a clean tree [git diff -- missing.txt] prints
    nothing, and the scoped diff of [missing.txt] is the empty string, not a
    section headed [# No diff available for: missing.txt]. *)
Lemma get_scoped_diff_blank_output_has_no_section :
  subprocess_run (world_answers None) []
    ["git"; "diff"; "--staged"; "--"; "missing.txt"] = Ok EmptyString
  /\ @get_scoped_diff posix_runtime (world_answers None)
       ["missing.txt"] "staged" []
     = (Ok EmptyString,
        [EGit ["git"; "diff"; "--staged"; "--"; "missing.txt"]])
  /\ EmptyString <> "# No diff available for: missing.txt".
Proof.
  split; [reflexivity | split; [reflexivity | discriminate]].
Qed.

Lemma fold_left_extend {A B} (f : B -> list A) (l : list B) :
  forall acc,
    fold_left (fun acc b => Py.extend acc (f b)) l acc
    = (acc ++ flat_map f l)%list.
Proof.
  induction l as [| b l IH]; intros acc; simpl.
  - rewrite app_nil_r. reflexivity.
  - rewrite IH. unfold Py.extend. rewrite app_assoc. reflexivity.
Qed.

Lemma git_diff_args_exclusions (target pattern : string) :
  In pattern EXCLUDE_PATTERNS ->
  exists before after,
    git_diff_args target
    = List.app before ("--" :: (":!" ++ pattern) :: after).
Proof.
  intros Hin. unfold git_diff_args.
  rewrite (fold_left_extend (fun p => ["--"; ":!" ++ p])).
  destruct (in_split _ _ Hin) as (l1 & l2 & El). rewrite El.
  rewrite flat_map_app. simpl.
  eexists (_ ++ flat_map _ l1)%list, _.
  rewrite <- app_assoc. reflexivity.
Qed.

Lemma get_changed_files_log {RT : Runtime} (W : World) (h : log) :
  snd (get_changed_files W h)
  = (h ++ [EGit ["git"; "diff"; "--staged"; "--name-only"]])%list
  \/ snd (get_changed_files W h)
     = (h ++ [EGit ["git"; "diff"; "--staged"; "--name-only"];
              EGit ["git"; "diff"; "--name-only"]])%list.
Proof.
  unfold get_changed_files, try_except, bind, run_git, ret, Py.append.
  destruct (subprocess_run W h _) as [staged | e].
  - right. rewrite <- app_assoc. simpl.
    destruct (subprocess_run W _ _) as [unstaged | e]; [reflexivity |].
    destruct e; reflexivity.
  - left. destruct e; reflexivity.
Qed.

(** C7 (as amended).  Only the full-tree diff carries the exclusion set:
    [get_git_diff] runs exactly one command, and for every configured
    pattern [p] that command holds the two arguments [--] and [:!p] side by
    side.  The per-path scoped diff runs, for each path, a command made of
    [git diff], the target selector, [--] and the path and nothing else, and
    the changed-file listing runs the two fixed [--name-only] commands:
    neither appends any exclusion pattern. *)
Theorem exclusions_only_on_full_tree_diff :
  forall (RT : Runtime) (W : World),
    (forall target h,
        snd (get_git_diff W target h)
        = Py.append h (EGit (git_diff_args target)))
    /\ (forall target pattern,
           In pattern EXCLUDE_PATTERNS ->
           exists before after,
             git_diff_args target
             = List.app before ("--" :: (":!" ++ pattern) :: after))
    /\ (forall files target h,
           snd (get_scoped_diff W files target h)
           = (h ++ scoped_events target files)%list)
    /\ (forall target path a,
           In a (scoped_diff_args target path) ->
           In a ["git"; "diff"; "--staged"; target; "--"; path])
    /\ (forall h,
           snd (get_changed_files W h)
           = (h ++ [EGit ["git"; "diff"; "--staged"; "--name-only"]])%list
           \/ snd (get_changed_files W h)
              = (h ++ [EGit ["git"; "diff"; "--staged"; "--name-only"];
                       EGit ["git"; "diff"; "--name-only"]])%list).
Proof.
  intros RT W. repeat split.
  - intros target h. unfold get_git_diff, try_except, run_git.
    destruct (subprocess_run W h _) as [out | e]; [reflexivity |].
    destruct e; reflexivity.
  - intros target pattern. apply git_diff_args_exclusions.
  - intros files target h. rewrite get_scoped_diff_eq. reflexivity.
  - intros target path a. unfold scoped_diff_args.
    destruct (target =? "staged"); [| destruct (target =? "unstaged")];
      simpl; intuition.
  - apply get_changed_files_log.
Qed.

(** The witness of C7: the staged full-tree diff excludes [*.lock]. *)
Lemma exclusions_only_on_full_tree_diff_witness :
  exists before after,
    git_diff_args "staged"
    = List.app before ("--" :: (":!" ++ "*.lock") :: after).
Proof.
  apply (proj1 (proj2 (exclusions_only_on_full_tree_diff
                         posix_runtime (world_answers None)))).
  simpl. auto.
Defined.

(** C7 (as stated) fails: the scoped diff of [uv.lock], a file the exclusion
    set names, runs [git diff --staged -- uv.lock] with no negative path
    filter at all. *)
Lemma scoped_diff_has_no_exclusion :
  In "uv.lock" EXCLUDE_PATTERNS
  /\ git_calls (snd (@get_scoped_diff posix_runtime (world_answers None)
                        ["uv.lock"] "staged" []))
     = [["git"; "diff"; "--staged"; "--"; "uv.lock"]]
  /\ ~ In ":!uv.lock" ["git"; "diff"; "--staged"; "--"; "uv.lock"].
Proof.
  split; [simpl; tauto |].
  split; [reflexivity |].
  simpl. intros H. repeat (destruct H as [H | H]; [discriminate |]). exact H.
Qed.

(** C10.  Without a [git] executable the first listing raises
    [FileNotFoundError]; [get_changed_files] catches only
    [CalledProcessError], so the exception leaves it instead of an empty
    list, while [get_git_diff] in the same situation returns text. *)
Theorem get_changed_files_raises_without_git :
  @get_changed_files posix_runtime world_no_git []
  = (Raise (FileNotFoundError "[Errno 2] No such file or directory: 'git'"),
     [EGit ["git"; "diff"; "--staged"; "--name-only"]])
  /\ fst (get_git_diff world_no_git "staged" [])
     = Ok "Error: git is not installed or not in PATH".
Proof. split; reflexivity. Qed.

Section ChangedFiles.

Context {RT : Runtime} (W : World).

(** When both listings succeed the result holds, once each, the non-empty
    names of either listing. *)
Lemma get_changed_files_union (h : log) (staged unstaged : string) :
  set_iter_ok RT ->
  subprocess_run W h ["git"; "diff"; "--staged"; "--name-only"] = Ok staged ->
  subprocess_run W
    (Py.append h (EGit ["git"; "diff"; "--staged"; "--name-only"]))
    ["git"; "diff"; "--name-only"] = Ok unstaged ->
  exists files h',
    get_changed_files W h = (Ok files, h')
    /\ NoDup files
    /\ forall name,
         In name files <->
         name <> EmptyString
         /\ (In name (Py.split Py.LF (Py.strip staged))
             \/ In name (Py.split Py.LF (Py.strip unstaged))).
Proof.
  intros Hset Hs Hu.
  unfold get_changed_files, try_except, bind, run_git, ret.
  rewrite Hs, Hu. eexists _, _. split; [reflexivity |].
  destruct (Hset (Py.extend (Py.split Py.LF (Py.strip staged))
                            (Py.split Py.LF (Py.strip unstaged))))
    as [Hnd Hin].
  split.
  - apply NoDup_filter. exact Hnd.
  - intros name. rewrite filter_In, Hin. unfold Py.extend.
    rewrite in_app_iff. destruct name; simpl; intuition congruence.
Qed.

(** A listing that exits with an error gives the empty list. *)
Lemma get_changed_files_git_error (h : log) (msg stderr : string) :
  subprocess_run W h ["git"; "diff"; "--staged"; "--name-only"]
  = Raise (CalledProcessError msg stderr) ->
  fst (get_changed_files W h) = Ok [].
Proof.
  intros Hs. unfold get_changed_files, try_except, bind, run_git.
  rewrite Hs. reflexivity.
Qed.

End ChangedFiles.

(** ** ToolRegistry *)

(** C5 (as amended).  A name that is none of the three registered tools and
    is not the legacy name [read_file] either is answered with the text
    [Unknown tool: <name>]; the dispatcher raises nothing and touches
    neither git nor the file system, whatever the arguments are. *)
Theorem execute_tool_unknown :
  forall (RT : Runtime) (W : World) (name : string) (arguments : json)
         (h : log),
    ~ In name REVIEWER_TOOLS ->
    name <> "read_file" ->
    _execute_tool W name arguments h = (Ok ("Unknown tool: " ++ name), h).
Proof.
  intros RT W name arguments h Hreg Hlegacy. unfold _execute_tool.
  destruct (name =? "get_uncommitted_changes") eqn:E1.
  { apply String.eqb_eq in E1. exfalso. apply Hreg. simpl. auto. }
  destruct (name =? "read_files") eqn:E2.
  { apply String.eqb_eq in E2. exfalso. apply Hreg. simpl. auto. }
  destruct (name =? "read_file") eqn:E3.
  { apply String.eqb_eq in E3. contradiction. }
  destruct (name =? "list_changed_files") eqn:E4.
  { apply String.eqb_eq in E4. exfalso. apply Hreg. simpl. auto. }
  reflexivity.
Qed.

(** The witness of C5: a tool named [delete_repository]. *)
Lemma execute_tool_unknown_witness :
  @_execute_tool posix_runtime (world_answers None)
     "delete_repository" (JObj []) []
  = (Ok "Unknown tool: delete_repository", []).
Proof.
  apply (execute_tool_unknown posix_runtime (world_answers None)
           "delete_repository" (JObj []) []).
  - simpl. intros H.
    repeat (destruct H as [H | H]; [discriminate |]). exact H.
  - discriminate.
Defined.

(** C5 (as stated) fails: [read_file] is not one of the three registered
    tools, yet the dispatcher serves it as a one-file [read_files] instead
    of answering [Unknown tool: read_file]. *)
Lemma execute_tool_read_file_is_served :
  ~ In "read_file" REVIEWER_TOOLS
  /\ @_execute_tool posix_runtime (world_answers None)
       "read_file" (JObj [("path", JStr "notes.md")]) []
     = (Ok (Py.nlnl ++ "(Note: Context file 'notes.md' not found)" ++ Py.nl),
        [EOpen (JStr "notes.md")])
  /\ Py.nlnl ++ "(Note: Context file 'notes.md' not found)" ++ Py.nl
     <> "Unknown tool: read_file".
Proof.
  split.
  - simpl. intros H.
    repeat (destruct H as [H | H]; [discriminate |]). exact H.
  - split; [reflexivity | discriminate].
Qed.

Section Tools.

Context {RT : Runtime} (W : World).

Lemma quiet_read_context_files (filepaths : json) :
  quiet (read_context_files W filepaths).
Proof.
  unfold read_context_files. apply quiet_bind; [apply quiet_lift |].
  intros items. apply quiet_foldM. intros context filepath.
  unfold read_context_step. apply quiet_try_except.
  - apply quiet_bind; [apply quiet_open_file | intros; apply quiet_ret].
  - intros e k Hk. destruct e; inversion Hk; apply quiet_ret.
Qed.

Lemma quiet_execute_tool (name : string) (arguments : json) :
  quiet (_execute_tool W name arguments).
Proof.
  unfold _execute_tool.
  destruct (name =? "get_uncommitted_changes").
  { apply quiet_bind; [apply quiet_lift |]. intros target.
    destruct target; try apply quiet_raise. apply quiet_get_git_diff. }
  destruct (name =? "read_files").
  { apply quiet_bind; [apply quiet_lift |]. intros paths.
    apply quiet_read_context_files. }
  destruct (name =? "read_file").
  { apply quiet_bind; [apply quiet_lift |]. intros path.
    apply quiet_read_context_files. }
  destruct (name =? "list_changed_files").
  { apply quiet_bind; [apply quiet_get_changed_files |]. intros files.
    destruct files; apply quiet_ret. }
  apply quiet_ret.
Qed.

Lemma quiet_run_tool_call (messages : list message) (tc : tool_call) :
  quiet (run_tool_call W messages tc).
Proof.
  unfold run_tool_call. apply quiet_bind.
  - apply quiet_execute_tool.
  - intros. apply quiet_ret.
Qed.

End Tools.

(** ** server.py *)

(** C4.  The entry point calls [run_agentic_review] with a keyword
    [working_dir] the function does not declare: whatever the arguments and
    the environment, the call raises [TypeError] before the review starts,
    and no review text is returned. *)
Theorem review_with_context_raises :
  forall (RT : Runtime) (W : World) (diff_target : string)
         (context_files focus_files : option (list string))
         (task_description : string) (h : log),
    review_with_context W diff_target context_files focus_files
                        task_description h
    = (Raise (TypeError "run_agentic_review() got an unexpected keyword argument 'working_dir'"),
       h).
Proof. intros. reflexivity. Qed.

(** ** ArtifactProcessor *)

Section Artifacts.

Context {RT : Runtime} (W : World).

Lemma total_replace_render_diff (diff_target g : string) :
  total (replace_render_diff W diff_target g).
Proof.
  unfold replace_render_diff. apply total_bind.
  - apply total_get_scoped_diff.
  - intros d. destruct (Py.truthy d); apply total_ret.
Qed.

Lemma quiet_replace_render_diff (diff_target g : string) :
  quiet (replace_render_diff W diff_target g).
Proof.
  unfold replace_render_diff. apply quiet_bind.
  - apply quiet_get_scoped_diff.
  - intros d. destruct (Py.truthy d); apply quiet_ret.
Qed.

Lemma total_re_sub match_at (repl : string -> M string) (s : string) :
  (forall g, total (repl g)) -> total (re_sub match_at repl s).
Proof.
  intros Hr. unfold re_sub. apply total_foldM. intros out p.
  destruct p; [apply total_ret |].
  apply total_bind; [apply Hr | intros; apply total_ret].
Qed.

Lemma quiet_re_sub match_at (repl : string -> M string) (s : string) :
  (forall g, quiet (repl g)) -> quiet (re_sub match_at repl s).
Proof.
  intros Hr. unfold re_sub. apply quiet_foldM. intros out p.
  destruct p; [apply quiet_ret |].
  apply quiet_bind; [apply Hr | intros; apply quiet_ret].
Qed.

Lemma total_linked_file_step (linked_context read_path : string) :
  total (linked_file_step W linked_context read_path).
Proof.
  unfold linked_file_step. apply total_try_except.
  intros e. eexists. split; [reflexivity | apply total_ret].
Qed.

Lemma quiet_linked_file_step (linked_context read_path : string) :
  quiet (linked_file_step W linked_context read_path).
Proof.
  unfold linked_file_step. apply quiet_try_except.
  - apply quiet_bind; [apply quiet_open_file | intros; apply quiet_ret].
  - intros e k Hk. inversion Hk. apply quiet_ret.
Qed.

(** What [process_artifact_with_links] does once the artifact is read. *)
Lemma total_artifact_body (diff_target text : string) :
  total (let (diff_files, read_files) := parse_file_links text in
         scoped_diff <- get_scoped_diff W diff_files diff_target ;;
         processed <- re_sub match_render_diffs
                        (replace_render_diff W diff_target) text ;;
         linked_context <- foldM (linked_file_step W) (firstn 5 read_files)
                             EmptyString ;;
         ret (processed ++ linked_context, scoped_diff)).
Proof.
  destruct (parse_file_links text) as [diff_files read_files].
  apply total_bind; [apply total_get_scoped_diff | intros scoped_diff].
  apply total_bind.
  { apply total_re_sub. apply total_replace_render_diff. }
  intros processed. apply total_bind.
  { apply total_foldM. apply total_linked_file_step. }
  intros. apply total_ret.
Qed.

Lemma quiet_process_artifact_with_links (filepath diff_target : string) :
  quiet (process_artifact_with_links W filepath diff_target).
Proof.
  unfold process_artifact_with_links. apply quiet_bind.
  - apply quiet_try_except.
    + apply quiet_bind; [apply quiet_open_file | intros; apply quiet_ret].
    + intros e k Hk. destruct e; inversion Hk; apply quiet_ret.
  - intros [text |]; [| apply quiet_ret].
    destruct (parse_file_links text) as [diff_files read_files].
    apply quiet_bind; [apply quiet_get_scoped_diff | intros scoped_diff].
    apply quiet_bind.
    { apply quiet_re_sub. apply quiet_replace_render_diff. }
    intros processed. apply quiet_bind.
    { apply quiet_foldM. apply quiet_linked_file_step. }
    intros. apply quiet_ret.
Qed.

End Artifacts.

(** C6 (as amended).  What [process_artifact_with_links] gives is decided by
    the attempt to read the artifact: when the file is read, a pair is
    returned whatever git and the linked files then do; when the file does
    not exist, the pair is the placeholder note [(Artifact not found:
    <path>)] with the empty scoped diff; any other error raised by reading
    the artifact is passed on to the caller. *)
Theorem process_artifact_outcome :
  forall (RT : Runtime) (W : World) (filepath diff_target : string)
         (h : log),
    match open_read W h (JStr filepath) with
    | Ok _ =>
        exists pair h',
          process_artifact_with_links W filepath diff_target h
          = (Ok pair, h')
    | Raise (FileNotFoundError _) =>
        process_artifact_with_links W filepath diff_target h
        = (Ok ("(Artifact not found: " ++ filepath ++ ")", EmptyString),
           Py.append h (EOpen (JStr filepath)))
    | Raise e =>
        process_artifact_with_links W filepath diff_target h
        = (Raise e, Py.append h (EOpen (JStr filepath)))
    end.
Proof.
  intros RT W filepath diff_target h.
  unfold process_artifact_with_links.
  rewrite bind_eq, try_except_eq, bind_eq. unfold open_file.
  destruct (open_read W h (JStr filepath)) as [text | e].
  - apply total_artifact_body.
  - destruct e; reflexivity.
Qed.

(** C6 (as stated) fails: when the artifact path is a directory, reading it
    raises [IsADirectoryError], which is not the [FileNotFoundError] the
    function catches, and the exception reaches the caller. *)
Lemma process_artifact_directory_raises :
  @process_artifact_with_links posix_runtime world_directories
     "docs" "staged" []
  = (Raise (OtherException "[Errno 21] Is a directory: 'docs'"),
     [EOpen (JStr "docs")]).
Proof. reflexivity. Qed.

(** ** LinkResolver *)

(** *** The two patterns *)

Lemma append_assoc (a b c : string) : (a ++ b) ++ c = a ++ (b ++ c).
Proof.
  induction a as [| x a IH]; simpl; [reflexivity | rewrite IH; reflexivity].
Qed.

Lemma drop_prefix_Some (p s r : string) :
  drop_prefix p s = Some r <-> s = p ++ r.
Proof.
  revert s. induction p as [| a p IH]; intros s; simpl.
  - split; [intros H; inversion H; reflexivity | intros ->; reflexivity].
  - destruct s as [| b s].
    + split; discriminate.
    + destruct (Ascii.eqb a b) eqn:E.
      * apply Ascii.eqb_eq in E. subst b. rewrite IH.
        split; [intros ->; reflexivity | intros H; inversion H; reflexivity].
      * apply Ascii.eqb_neq in E.
        split; [discriminate | intros H; inversion H; congruence].
Qed.

Lemma lstrip_split (s : string) :
  exists ws, all_space ws = true /\ s = ws ++ Py.lstrip s.
Proof.
  induction s as [| c s (ws & Hws & E)]; simpl.
  - exists EmptyString. split; reflexivity.
  - destruct (Py.is_space c) eqn:Ec.
    + exists (String c ws). simpl. rewrite Ec, Hws, <- E.
      split; reflexivity.
    + exists EmptyString. split; reflexivity.
Qed.

Lemma lstrip_app (ws : string) (c : ascii) (r : string) :
  all_space ws = true -> Py.is_space c = false ->
  Py.lstrip (ws ++ String c r) = String c r.
Proof.
  intros Hws Hc. induction ws as [| x ws IH]; simpl.
  - rewrite Hc. reflexivity.
  - simpl in Hws. apply andb_prop in Hws. destruct Hws as [Hx Hws].
    rewrite Hx. apply IH. exact Hws.
Qed.

Lemma span_not_split (stop : ascii) (s : string) :
  s = fst (span_not stop s) ++ snd (span_not stop s)
  /\ lacks stop (fst (span_not stop s)) = true.
Proof.
  induction s as [| c s [E L]]; simpl.
  - split; reflexivity.
  - destruct (Ascii.eqb c stop) eqn:Ec; simpl.
    + split; reflexivity.
    + destruct (span_not stop s) as [g r]. simpl in *.
      rewrite Ec, L, <- E. split; reflexivity.
Qed.

Lemma span_not_app (stop : ascii) (g r : string) :
  lacks stop g = true ->
  span_not stop (g ++ String stop r) = (g, String stop r).
Proof.
  intros L. induction g as [| c g IH]; simpl.
  - rewrite Ascii.eqb_refl. reflexivity.
  - simpl in L. apply andb_prop in L. destruct L as [Lc L].
    apply negb_true_iff in Lc. rewrite Lc, (IH L). reflexivity.
Qed.

(** The render-diff matcher accepts exactly the texts the pattern
    describes, with group 1 the whole run up to the closing parenthesis. *)
Lemma match_render_diffs_iff (s g rest : string) :
  match_render_diffs s = Some (g, rest) <->
  exists ws1 ws2,
    all_space ws1 = true /\ all_space ws2 = true
    /\ g <> EmptyString /\ lacks ")" g = true
    /\ s = "render_diffs" ++ ws1 ++ "(" ++ ws2 ++ "file:///" ++ g ++ ")"
           ++ rest.
Proof.
  unfold match_render_diffs. split.
  - destruct (drop_prefix "render_diffs" s) as [s1 |] eqn:E1;
      [| discriminate].
    destruct (drop_prefix "(" (Py.lstrip s1)) as [s2 |] eqn:E2;
      [| discriminate].
    destruct (drop_prefix "file:///" (Py.lstrip s2)) as [s3 |] eqn:E3;
      [| discriminate].
    destruct (span_not_split ")" s3) as [E4 L].
    destruct (span_not ")" s3) as [g' r]. simpl in E4, L.
    destruct g' as [| c g']; [discriminate |].
    destruct (drop_prefix ")" r) as [rest' |] eqn:E5; [| discriminate].
    intros H. inversion H; subst g rest'. clear H.
    apply drop_prefix_Some in E1, E2, E3, E5.
    destruct (lstrip_split s1) as (ws1 & H1 & S1).
    destruct (lstrip_split s2) as (ws2 & H2 & S2).
    exists ws1, ws2. repeat split; try assumption; [discriminate |].
    rewrite E1, S1, E2, S2, E3, E4, E5. reflexivity.
  - intros (ws1 & ws2 & H1 & H2 & Hg & L & ->).
    cbn [drop_prefix append Ascii.eqb Bool.eqb].
    change (ws1 ++ "(" ++ ws2 ++ "file:///" ++ g ++ ")" ++ rest)
      with (ws1 ++ String "(" (ws2 ++ "file:///" ++ g ++ ")" ++ rest)).
    rewrite (lstrip_app ws1 "(" _ H1 eq_refl).
    cbn [drop_prefix Ascii.eqb Bool.eqb].
    change (ws2 ++ "file:///" ++ g ++ ")" ++ rest)
      with (ws2 ++ String "f" ("ile:///" ++ g ++ ")" ++ rest)).
    rewrite (lstrip_app ws2 "f" _ H2 eq_refl).
    cbn [drop_prefix append Ascii.eqb Bool.eqb].
    change (g ++ ")" ++ rest) with (g ++ String ")" rest).
    rewrite (span_not_app _ _ _ L).
    destruct g as [| c g]; [contradiction |].
    cbn [drop_prefix Ascii.eqb Bool.eqb]. reflexivity.
Qed.

(** The markdown-link matcher accepts exactly the texts the pattern
    describes, with group 2 the whole run up to the closing parenthesis. *)
Lemma match_link_iff (s g rest : string) :
  match_link s = Some (g, rest) <->
  exists label,
    lacks "]" label = true
    /\ g <> EmptyString /\ lacks ")" g = true
    /\ s = "[" ++ label ++ "](file:///" ++ g ++ ")" ++ rest.
Proof.
  unfold match_link. split.
  - destruct (drop_prefix "[" s) as [s1 |] eqn:E1; [| discriminate].
    destruct (span_not_split "]" s1) as [E2 L1].
    destruct (span_not "]" s1) as [label r1]. simpl in E2, L1.
    destruct (drop_prefix "](file:///" r1) as [s2 |] eqn:E3;
      [| discriminate].
    destruct (span_not_split ")" s2) as [E4 L2].
    destruct (span_not ")" s2) as [g' r]. simpl in E4, L2.
    destruct g' as [| c g']; [discriminate |].
    destruct (drop_prefix ")" r) as [rest' |] eqn:E5; [| discriminate].
    intros H. inversion H; subst g rest'. clear H.
    apply drop_prefix_Some in E1, E3, E5.
    exists label. repeat split; try assumption; [discriminate |].
    rewrite E1, E2, E3, E4, E5. reflexivity.
  - intros (label & L1 & Hg & L2 & ->).
    cbn [drop_prefix append Ascii.eqb Bool.eqb].
    change (label ++ "](file:///" ++ g ++ ")" ++ rest)
      with (label ++ String "]" ("(file:///" ++ g ++ ")" ++ rest)).
    rewrite (span_not_app _ _ _ L1).
    cbn [drop_prefix append Ascii.eqb Bool.eqb].
    change (g ++ ")" ++ rest) with (g ++ String ")" rest).
    rewrite (span_not_app _ _ _ L2).
    destruct g as [| c g]; [contradiction |].
    cbn [drop_prefix Ascii.eqb Bool.eqb]. reflexivity.
Qed.

(** The search passes over a prefix in which no match starts. *)
Lemma scan_unmatched_prefix match_at (pre tail : string) :
  unmatched_before match_at pre tail = true ->
  scan match_at 0 (pre ++ tail)
  = (map Lit (list_ascii_of_string pre) ++ scan match_at 0 tail)%list.
Proof.
  induction pre as [| c pre IH]; intros H; [reflexivity |].
  cbn [unmatched_before] in H.
  change (String c pre ++ tail) with (String c (pre ++ tail)) in *.
  cbn [scan list_ascii_of_string map List.app].
  destruct (match_at (String c (pre ++ tail))) as [[g r] |];
    [discriminate |].
  rewrite (IH H). reflexivity.
Qed.

Lemma finditer_unmatched_prefix match_at (pre tail : string) :
  unmatched_before match_at pre tail = true ->
  finditer match_at (pre ++ tail) = finditer match_at tail.
Proof.
  intros H. unfold finditer. rewrite (scan_unmatched_prefix _ _ _ H).
  rewrite flat_map_app.
  replace (flat_map _ (map Lit (list_ascii_of_string pre)))
    with (@nil string); [reflexivity |].
  induction (list_ascii_of_string pre) as [| c l IH]; [reflexivity |].
  simpl. exact IH.
Qed.

(** *** The two lists *)

Lemma fold_left_append_map {A B} (f : B -> A) (l : list B) :
  forall acc,
    fold_left (fun acc b => Py.append acc (f b)) l acc
    = (acc ++ map f l)%list.
Proof.
  induction l as [| b l IH]; intros acc; simpl.
  - rewrite app_nil_r. reflexivity.
  - rewrite IH. unfold Py.append. rewrite <- app_assoc. reflexivity.
Qed.

Lemma fold_left_append_filter {A B} (f : B -> A) (keep : A -> bool)
    (l : list B) :
  forall acc,
    fold_left (fun acc b => if keep (f b) then Py.append acc (f b) else acc)
              l acc
    = (acc ++ filter keep (map f l))%list.
Proof.
  induction l as [| b l IH]; intros acc; simpl.
  - rewrite app_nil_r. reflexivity.
  - rewrite IH. destruct (keep (f b)); [| reflexivity].
    unfold Py.append. rewrite <- app_assoc. reflexivity.
Qed.

Lemma mem_In (x : string) (l : list string) :
  Py.mem x l = true <-> In x l.
Proof.
  unfold Py.mem. rewrite existsb_exists. split.
  - intros (y & Hy & E). apply String.eqb_eq in E. subst. exact Hy.
  - intros H. exists x. split; [exact H | apply String.eqb_refl].
Qed.

Section Links.

Context {RT : Runtime}.

Lemma parse_file_links_diff_files (doc : string) :
  fst (parse_file_links doc)
  = map (fun g => normalize_file_uri_path (unquote g))
        (finditer match_render_diffs doc).
Proof.
  unfold parse_file_links. simpl.
  rewrite (fold_left_append_map
             (fun g => normalize_file_uri_path (unquote g))).
  reflexivity.
Qed.

Lemma parse_file_links_read_files (doc : string) :
  snd (parse_file_links doc)
  = filter (fun p => negb (Py.mem p (fst (parse_file_links doc))))
           (map (fun g => normalize_file_uri_path (unquote g))
                (finditer match_link doc)).
Proof.
  unfold parse_file_links. simpl.
  rewrite (fold_left_append_filter
             (fun g => normalize_file_uri_path (unquote g))
             (fun p => negb (Py.mem p _))).
  reflexivity.
Qed.

Lemma read_files_not_in_diff_files (doc path : string) :
  In path (fst (parse_file_links doc)) ->
  ~ In path (snd (parse_file_links doc)).
Proof.
  intros Hd Hr. rewrite parse_file_links_read_files in Hr.
  apply filter_In in Hr. destruct Hr as [_ Hr].
  apply mem_In in Hd. rewrite Hd in Hr. discriminate.
Qed.

End Links.

Lemma normalize_drive_letter (path : string) :
  String.get 1 path = Some ":"%char ->
  normalize_file_uri_path path = path.
Proof.
  intros H. unfold normalize_file_uri_path. rewrite H.
  destruct path as [| a [| b path]]; try discriminate. reflexivity.
Qed.

Lemma normalize_other (path : string) :
  String.get 1 path <> Some ":"%char ->
  normalize_file_uri_path path
  = if Py.startswith "/" path then path else "/" ++ path.
Proof.
  intros H. unfold normalize_file_uri_path.
  destruct (String.get 1 path) as [c |] eqn:E.
  - destruct (Ascii.eqb c ":") eqn:Ec.
    + apply Ascii.eqb_eq in Ec. subst. contradiction.
    + rewrite andb_false_r. destruct (Py.startswith "/" path); reflexivity.
  - rewrite andb_false_r. destruct (Py.startswith "/" path); reflexivity.
Qed.

(** C8 (as amended).  For every document, [diff_files] is, in order of
    occurrence, the path of every match of the render-diff pattern,
    percent-decoded and normalized, and [read_files] is, in order of
    occurrence, the decoded and normalized path of every match of the
    markdown-link pattern that is not in [diff_files]; a link that occurs
    several times is listed as many times.  Normalizing keeps a path whose
    second character is a colon and puts a separator in front of any other
    path that does not start with one.  No path is in both lists, and in a
    document where [render_diffs(file:///a%20b.txt)] occurs with no match of
    the render-diff pattern starting before it, the path [/a b.txt] is in
    [diff_files] and not in [read_files]. *)
Theorem parse_file_links_resolved :
  forall (RT : Runtime) (doc : string),
    fst (parse_file_links doc)
    = map (fun g => normalize_file_uri_path (unquote g))
          (finditer match_render_diffs doc)
    /\ snd (parse_file_links doc)
       = filter (fun p => negb (Py.mem p (fst (parse_file_links doc))))
                (map (fun g => normalize_file_uri_path (unquote g))
                     (finditer match_link doc))
    /\ (forall path,
           String.get 1 path = Some ":"%char ->
           normalize_file_uri_path path = path)
    /\ (forall path,
           String.get 1 path <> Some ":"%char ->
           normalize_file_uri_path path
           = if Py.startswith "/" path then path else "/" ++ path)
    /\ (forall path,
           In path (fst (parse_file_links doc)) ->
           ~ In path (snd (parse_file_links doc)))
    /\ (unquote "a%20b.txt" = "a b.txt" ->
        forall pre rest,
          unmatched_before match_render_diffs pre
            ("render_diffs(file:///a%20b.txt)" ++ rest) = true ->
          let links :=
            parse_file_links
              (pre ++ "render_diffs(file:///a%20b.txt)" ++ rest) in
          In "/a b.txt" (fst links) /\ ~ In "/a b.txt" (snd links)).
Proof.
  intros RT doc.
  split; [apply parse_file_links_diff_files |].
  split; [apply parse_file_links_read_files |].
  split; [apply normalize_drive_letter |].
  split; [apply normalize_other |].
  split; [intros path; apply read_files_not_in_diff_files |].
  intros Hunquote pre rest Hpre links.
  assert (Hin : In "/a b.txt" (fst links)).
  { subst links. rewrite parse_file_links_diff_files.
    rewrite (finditer_unmatched_prefix _ _ _ Hpre).
    unfold finditer. simpl. left. rewrite Hunquote. reflexivity. }
  split; [exact Hin |].
  apply read_files_not_in_diff_files. exact Hin.
Qed.

(** The witness of C8, with the ASCII percent-decoder. *)
Lemma parse_file_links_resolved_witness :
  unquote_ascii "a%20b.txt" = "a b.txt"
  /\ In "/a b.txt"
        (fst (@parse_file_links posix_runtime
                "Changes: render_diffs(file:///a%20b.txt), see [it](file:///a%20b.txt)."))
  /\ ~ In "/a b.txt"
          (snd (@parse_file_links posix_runtime
                  "Changes: render_diffs(file:///a%20b.txt), see [it](file:///a%20b.txt).")).
Proof.
  split; [reflexivity |].
  exact (proj2 (proj2 (proj2 (proj2 (proj2
           (parse_file_links_resolved posix_runtime EmptyString)))))
           eq_refl "Changes: " ", see [it](file:///a%20b.txt)." eq_refl).
Defined.

(** A directive that lies inside the group of an earlier match is not a
    match of its own: its path is missing from [diff_files], and a link to
    the same file is then listed in [read_files]. *)
Lemma directive_inside_earlier_match :
  @parse_file_links posix_runtime
     "render_diffs(file:///x render_diffs(file:///a%20b.txt) [l](file:///a%20b.txt)"
  = (["/x render_diffs(file:///a b.txt"], ["/a b.txt"]).
Proof. reflexivity. Qed.

(** C8 (as stated) fails: a document that links the same file twice gets
    that path twice in [read_files]; the list is not deduplicated. *)
Lemma read_files_keeps_repeated_links :
  @parse_file_links posix_runtime
     "See [plan](file:///notes.md) and [again](file:///notes.md)."
  = ([], ["/notes.md"; "/notes.md"])
  /\ ~ NoDup ["/notes.md"; "/notes.md"].
Proof.
  split; [reflexivity |].
  intros H. inversion H as [| x l Hnotin _]; subst.
  apply Hnotin. left. reflexivity.
Qed.

(** ** ReviewOrchestrator: the context sent with the first request *)

Section Prelude.

Context {RT : Runtime} (W : World).

Lemma quiet_load_artifact (diff_target : string) (acc : string * list string)
    (artifact : string) :
  quiet (load_artifact W diff_target acc artifact).
Proof.
  unfold load_artifact. destruct acc as [artifact_context all_diff_files].
  apply quiet_bind.
  - apply quiet_try_except.
    + apply quiet_bind; [apply quiet_open_file | intros; apply quiet_ret].
    + intros e k Hk. inversion Hk. apply quiet_ret.
  - intros [text |]; [| apply quiet_ret].
    destruct (parse_file_links text) as [diff_files linked_files].
    apply quiet_try_except.
    + apply quiet_bind; [apply quiet_process_artifact_with_links |].
      intros [processed scoped]. apply quiet_ret.
    + intros e k Hk. inversion Hk. apply quiet_ret.
Qed.

(** One artifact: the loop never raises, the diff files of a readable
    artifact are added to [all_diff_files] (even when processing it fails
    afterwards), and the events do not depend on what was accumulated. *)
Lemma load_artifact_eq (diff_target artifact_context : string)
    (all_diff_files : list string) (artifact : string) (h : log) :
  exists artifact_context',
    load_artifact W diff_target (artifact_context, all_diff_files) artifact h
    = (Ok (artifact_context',
           (all_diff_files
            ++ match open_read W h (JStr artifact) with
               | Ok text => fst (parse_file_links text)
               | Raise _ => []
               end)%list),
       snd (load_artifact W diff_target (EmptyString, []) artifact h)).
Proof.
  unfold load_artifact, bind, try_except, open_file, ret, Py.extend.
  destruct (open_read W h (JStr artifact)) as [text | e]; simpl.
  - destruct (parse_file_links text) as [diff_files linked_files]; simpl.
    destruct (process_artifact_with_links W artifact diff_target _)
      as [[[processed scoped] | e] h2]; simpl; eexists; reflexivity.
  - rewrite app_nil_r. eexists; reflexivity.
Qed.

Lemma foldM_load_artifact (diff_target : string) (artifacts : list string) :
  forall artifact_context all_diff_files h,
    exists artifact_context' h',
      foldM (load_artifact W diff_target) artifacts
            (artifact_context, all_diff_files) h
      = (Ok (artifact_context',
             (all_diff_files
              ++ artifact_diff_files W diff_target artifacts h)%list),
         h').
Proof.
  induction artifacts as [| a rest IH]; intros ctx all h;
    cbn [foldM artifact_diff_files].
  - rewrite app_nil_r. eexists _, _. reflexivity.
  - destruct (load_artifact_eq diff_target ctx all a h) as (ctx1 & E1).
    rewrite bind_eq, E1.
    destruct (IH ctx1
                (all ++ match open_read W h (JStr a) with
                        | Ok text => fst (parse_file_links text)
                        | Raise _ => []
                        end)%list
                (snd (load_artifact W diff_target (EmptyString, []) a h)))
      as (ctx2 & h2 & E2).
    rewrite E2. rewrite <- app_assoc. eexists _, _. reflexivity.
Qed.

Lemma quiet_load_artifacts (diff_target : string)
    (context_files : option (list string)) :
  quiet (load_artifacts W diff_target context_files).
Proof.
  unfold load_artifacts. apply quiet_foldM. intros acc artifact.
  apply quiet_load_artifact.
Qed.

Lemma prefetch_diff_eq (files_to_diff : option (list string))
    (diff_target : string) (h : log) :
  let scope := match files_to_diff with Some l => l | None => [] end in
  prefetch_diff W files_to_diff diff_target h
  = (Ok (Py.join Py.nlnl (sections_of W diff_target scope h), scope),
     (h ++ scoped_events diff_target scope)%list).
Proof.
  destruct files_to_diff as [[| f fs] |]; intros scope; subst scope;
    unfold prefetch_diff.
  - unfold ret. simpl. rewrite app_nil_r. reflexivity.
  - rewrite bind_eq, get_scoped_diff_eq. reflexivity.
  - unfold ret. simpl. rewrite app_nil_r. reflexivity.
Qed.

(** The context phase as a whole: it never raises, and after the artifacts
    it only diffs the selected scope. *)
Lemma prepare_messages_eq (diff_target : string)
    (context_files focus_files : option (list string))
    (task_description artifact_context : string)
    (all_diff_files : list string) (h0 h1 : log) :
  load_artifacts W diff_target context_files h0
  = (Ok (artifact_context, all_diff_files), h1) ->
  exists messages,
    prepare_messages W diff_target context_files focus_files
                     task_description h0
    = (Ok messages,
       (h1 ++ scoped_events diff_target
                (match select_files_to_diff focus_files all_diff_files with
                 | Some scope => scope
                 | None => []
                 end))%list).
Proof.
  intros Eload. unfold prepare_messages.
  rewrite bind_eq, Eload, bind_eq, prefetch_diff_eq.
  eexists. reflexivity.
Qed.

Lemma load_artifacts_eq (diff_target : string)
    (context_files : option (list string)) (h0 : log) :
  exists artifact_context h1,
    load_artifacts W diff_target context_files h0
    = (Ok (artifact_context,
           artifact_diff_files W diff_target
             (Py.extend default_artifacts
                        (match context_files with
                         | Some l => l
                         | None => []
                         end)) h0),
       h1).
Proof.
  destruct (foldM_load_artifact diff_target
              (Py.extend default_artifacts
                         (match context_files with
                          | Some l => l
                          | None => []
                          end)) EmptyString [] h0)
    as (ctx & h1 & Eload).
  rewrite app_nil_l in Eload. exists ctx, h1. exact Eload.
Qed.

(** When what a file holds does not change during the call, the discovered
    files are the directive paths of the readable artifacts, artifact after
    artifact. *)
Lemma artifact_diff_files_stable (diff_target : string)
    (artifacts : list string) :
  (forall h path, open_read W h path = open_read W [] path) ->
  forall h,
    artifact_diff_files W diff_target artifacts h
    = flat_map (fun a => match open_read W [] (JStr a) with
                         | Ok text => fst (parse_file_links text)
                         | Raise _ => []
                         end) artifacts.
Proof.
  intros Hstable. induction artifacts as [| a rest IH]; intros h;
    cbn [artifact_diff_files flat_map].
  - reflexivity.
  - rewrite IH, (Hstable h). reflexivity.
Qed.

End Prelude.

(** C9.  The files whose diff is computed ahead of the first request are
    chosen by precedence.  With [discovered] the diff-directive files of the
    artifacts that could be read (default artifacts first, then the context
    files, each list in document order): a non-empty focus list is the scope
    whatever [discovered] is; without a focus list (absent or empty) a
    non-empty [discovered] is the scope; with neither there is no scope.
    The scope is diffed path by path right after the artifacts are loaded,
    and with no scope nothing is diffed: the log is left as the artifacts
    left it. *)
Theorem diff_scope_precedence :
  forall (RT : Runtime) (W : World) (diff_target : string)
         (context_files focus_files : option (list string))
         (task_description : string) (h0 : log),
    let artifacts :=
      Py.extend default_artifacts
                (match context_files with Some l => l | None => [] end) in
    let discovered := artifact_diff_files W diff_target artifacts h0 in
    let files_to_diff := select_files_to_diff focus_files discovered in
    exists artifact_context h1,
      load_artifacts W diff_target context_files h0
      = (Ok (artifact_context, discovered), h1)
      /\ (forall focus,
             focus_files = Some focus -> focus <> [] ->
             files_to_diff = Some focus)
      /\ (focus_files = None \/ focus_files = Some [] ->
          discovered <> [] ->
          files_to_diff = Some discovered)
      /\ (focus_files = None \/ focus_files = Some [] ->
          discovered = [] ->
          files_to_diff = None)
      /\ (forall scope,
             files_to_diff = Some scope ->
             prefetch_diff W files_to_diff diff_target h1
             = (Ok (Py.join Py.nlnl (sections_of W diff_target scope h1),
                    scope),
                (h1 ++ scoped_events diff_target scope)%list))
      /\ (files_to_diff = None ->
          prefetch_diff W files_to_diff diff_target h1
          = (Ok (EmptyString, []), h1))
      /\ exists messages,
           prepare_messages W diff_target context_files focus_files
                            task_description h0
           = (Ok messages,
              (h1 ++ scoped_events diff_target
                       (match files_to_diff with
                        | Some scope => scope
                        | None => []
                        end))%list).
Proof.
  intros RT W diff_target context_files focus_files task_description h0
         artifacts discovered files_to_diff.
  destruct (load_artifacts_eq W diff_target context_files h0)
    as (ctx & h1 & Eload).
  exists ctx, h1. split; [exact Eload |].
  split.
  { intros focus -> Hne. subst files_to_diff.
    destruct focus; [contradiction | reflexivity]. }
  split.
  { intros Hnone Hne. subst files_to_diff.
    destruct Hnone as [-> | ->]; simpl;
      destruct discovered; try contradiction; reflexivity. }
  split.
  { intros Hnone Hempty. subst files_to_diff. rewrite Hempty.
    destruct Hnone as [-> | ->]; reflexivity. }
  split.
  { intros scope Hscope. rewrite Hscope.
    apply (prefetch_diff_eq W (Some scope)). }
  split.
  { intros Hnone. rewrite Hnone. reflexivity. }
  apply (prepare_messages_eq W diff_target context_files focus_files
           task_description _ _ _ _ Eload).
Qed.

(** The witness of C9: [task.md] names [/src/x.py] in a diff directive, the
    caller focuses on [a.py] and [b.py], and the scope is the focus list. *)
Lemma diff_scope_precedence_witness :
  @artifact_diff_files posix_runtime world_task_artifact "staged"
     default_artifacts [] = ["/src/x.py"]
  /\ select_files_to_diff (Some ["a.py"; "b.py"])
       (@artifact_diff_files posix_runtime world_task_artifact "staged"
          default_artifacts [])
     = Some ["a.py"; "b.py"].
Proof.
  split; [reflexivity |].
  destruct (diff_scope_precedence posix_runtime world_task_artifact "staged"
              None (Some ["a.py"; "b.py"]) EmptyString [])
    as (ctx & h1 & _ & Hfocus & _).
  apply (Hfocus ["a.py"; "b.py"]); [reflexivity | discriminate].
Defined.

(** ** ReviewOrchestrator: the loop *)

Section Loop.

Context {RT : Runtime} (W : World).

Lemma quiet_prepare_messages (diff_target : string)
    (context_files focus_files : option (list string))
    (task_description : string) :
  quiet (prepare_messages W diff_target context_files focus_files
                          task_description).
Proof.
  unfold prepare_messages. apply quiet_bind.
  - apply quiet_load_artifacts.
  - intros [artifact_context all_diff_files]. apply quiet_bind.
    + unfold prefetch_diff.
      destruct (select_files_to_diff focus_files all_diff_files)
        as [[| f fs] |]; try apply quiet_ret.
      apply quiet_bind; [apply quiet_get_scoped_diff |].
      intros. apply quiet_ret.
    + intros [diff_content changed_files]. apply quiet_ret.
Qed.

(** The context phase always hands a transcript to the loop. *)
Lemma prepare_messages_returns (diff_target : string)
    (context_files focus_files : option (list string))
    (task_description : string) (h0 : log) :
  exists messages h1,
    prepare_messages W diff_target context_files focus_files
                     task_description h0 = (Ok messages, h1)
    /\ chat_rounds h1 = chat_rounds h0.
Proof.
  destruct (load_artifacts_eq W diff_target context_files h0)
    as (ctx & h1 & Eload).
  destruct (prepare_messages_eq W diff_target context_files focus_files
              task_description _ _ _ _ Eload) as (messages & E).
  eexists _, _. split; [exact E |].
  eapply quiet_prepare_messages. exact E.
Qed.

(** One more round at most per turn of the loop, whatever happens in it. *)
Lemma review_loop_rounds (n : nat) :
  forall messages h r h',
    review_loop W n messages h = (r, h') ->
    chat_rounds h' <= chat_rounds h + n.
Proof.
  induction n as [| n IH]; intros messages h r h' E; cbn [review_loop] in E.
  - inversion E; subst. lia.
  - rewrite bind_eq, try_except_eq, bind_eq in E. unfold chat in E.
    assert (Hround : chat_rounds (Py.append h (EChat messages))
                     = chat_rounds h + 1)
      by (rewrite chat_rounds_append; reflexivity).
    destruct (chat_create W h messages) as [choices | e];
      cbn -[foldM review_loop] in E.
    + destruct choices as [| m ms].
      { inversion E; subst. lia. }
      destruct (tool_calls m) as [| tc calls].
      { destruct (content m) as [[| c text] |]; inversion E; subst; lia. }
      rewrite bind_eq in E.
      destruct (foldM (run_tool_call W) (tc :: calls) _ _)
        as [[messages' | e] h2] eqn:Ef.
      * apply (quiet_foldM _ _ (quiet_run_tool_call W)) in Ef.
        apply IH in E. lia.
      * apply (quiet_foldM _ _ (quiet_run_tool_call W)) in Ef.
        inversion E; subst. lia.
    + inversion E; subst. lia.
Qed.

Lemma foldM_run_tool_call_returns (calls : list tool_call) :
  (forall tc, In tc calls ->
              forall messages h, exists messages' h',
                run_tool_call W messages tc h = (Ok messages', h')) ->
  forall messages h, exists messages' h',
    foldM (run_tool_call W) calls messages h = (Ok messages', h').
Proof.
  induction calls as [| tc calls IH]; intros Hret messages h; simpl.
  - eexists _, _. reflexivity.
  - destruct (Hret tc (or_introl eq_refl) messages h) as (m1 & h1 & E1).
    rewrite bind_eq, E1. apply IH.
    intros tc' Hin. apply Hret. right. exact Hin.
Qed.

(** A model that keeps asking for tools that return uses up the loop. *)
Lemma review_loop_exhausted (n : nat) :
  always_requests_tools W ->
  requested_tools_return W ->
  forall messages h, exists h',
    review_loop W n messages h = (Ok iteration_exceeded, h')
    /\ chat_rounds h' = chat_rounds h + n.
Proof.
  intros Hasks Hret.
  induction n as [| n IH]; intros messages h; cbn [review_loop].
  - exists h. split; [reflexivity | lia].
  - rewrite bind_eq, try_except_eq, bind_eq. unfold chat.
    destruct (Hasks h messages) as (m & ms & Echat & Hcalls).
    rewrite Echat. cbn -[foldM review_loop].
    destruct (tool_calls m) as [| tc calls] eqn:Ecalls; [contradiction |].
    destruct (foldM_run_tool_call_returns (tc :: calls)
                (fun tc' Hin =>
                   Hret h messages m ms tc' Echat
                        (eq_ind_r (fun l => In tc' l) Hin Ecalls))
                (Py.append messages (MAssistant m))
                (Py.append h (EChat messages)))
      as (messages' & h2 & Ef).
    rewrite bind_eq, Ef.
    destruct (IH messages' h2) as (h' & E & Hrounds).
    exists h'. split; [exact E |].
    apply (quiet_foldM _ _ (quiet_run_tool_call W)) in Ef.
    rewrite chat_rounds_append in Ef. simpl in Ef. lia.
Qed.

(** A first response without tool calls ends the loop at once. *)
Lemma review_loop_first_answer (n : nat) (messages : list message) (h : log)
    (m : assistant_message) (ms : list assistant_message) :
  chat_create W h messages = Ok (m :: ms) ->
  tool_calls m = [] ->
  review_loop W (S n) messages h
  = (Ok match content m with
        | Some (String c text) => String c text
        | _ => "No review generated."
        end,
     Py.append h (EChat messages)).
Proof.
  intros Echat Ecalls. cbn [review_loop].
  rewrite bind_eq, try_except_eq, bind_eq. unfold chat.
  rewrite Echat. simpl. rewrite Ecalls.
  destruct (content m) as [[| c text] |]; reflexivity.
Qed.

Lemma max_iterations_default :
  getenv W "MAX_REVIEW_ITERATIONS" = None -> max_iterations W = Ok 10%Z.
Proof. intros H. unfold max_iterations. rewrite H. reflexivity. Qed.

End Loop.

(** C1 (as amended).  With [n] the iteration cap read from
    [MAX_REVIEW_ITERATIONS] (10 when the variable is unset), a call of
    [run_agentic_review] never sends more than [max(n, 0)] chat-completion
    requests, whatever the model and the tools do.  If moreover the
    credential is set, [n] is not negative, every response of the model
    carries at least one tool-call request and every tool call it asks for
    is dispatched without raising, the call sends exactly [n] requests and
    returns the fixed iteration-exceeded text. *)
Theorem review_rounds_bounded :
  forall (RT : Runtime) (W : World) (diff_target : string)
         (context_files focus_files : option (list string))
         (task_description : string) (h0 : log) (n : Z),
    max_iterations W = Ok n ->
    (forall r h,
        run_agentic_review W diff_target context_files focus_files
                           task_description h0 = (r, h) ->
        chat_rounds h <= chat_rounds h0 + Z.to_nat n)
    /\ (getenv W "MAX_REVIEW_ITERATIONS" = None -> n = 10%Z)
    /\ (has_credential W ->
        (0 <= n)%Z ->
        always_requests_tools W ->
        requested_tools_return W ->
        exists h,
          run_agentic_review W diff_target context_files focus_files
                             task_description h0
          = (Ok iteration_exceeded, h)
          /\ Z.of_nat (chat_rounds h) = (Z.of_nat (chat_rounds h0) + n)%Z).
Proof.
  intros RT W diff_target context_files focus_files task_description h0 n
         Hcap.
  split; [| split].
  - intros r h E. unfold run_agentic_review in E.
    destruct (getenv W "ZHIPU_API_KEY") as [[| c key] |];
      try (inversion E; subst; lia).
    rewrite bind_eq in E.
    destruct (prepare_messages W diff_target context_files focus_files
                task_description h0) as [[messages | e] h1] eqn:Eprep.
    + apply quiet_prepare_messages in Eprep.
      rewrite bind_eq in E. unfold lift in E. rewrite Hcap in E.
      apply review_loop_rounds in E. lia.
    + apply quiet_prepare_messages in Eprep. inversion E; subst. lia.
  - intros Hunset. rewrite (max_iterations_default W Hunset) in Hcap.
    inversion Hcap. reflexivity.
  - intros (c & key & Hkey) Hpos Hasks Hret.
    unfold run_agentic_review. rewrite Hkey.
    destruct (prepare_messages_returns W diff_target context_files
                focus_files task_description h0)
      as (messages & h1 & Eprep & Hquiet).
    rewrite bind_eq, Eprep, bind_eq. unfold lift. rewrite Hcap.
    destruct (review_loop_exhausted W (Z.to_nat n) Hasks Hret messages h1)
      as (h & E & Hrounds).
    exists h. split; [exact E | lia].
Qed.

(** The witness of C1: a model that asks for [list_changed_files] on every
    round, with the default cap of 10. *)
Lemma review_rounds_bounded_witness :
  exists h,
    @run_agentic_review posix_runtime
       (world_requests call_list_changed_files) "staged" None None
       EmptyString []
    = (Ok iteration_exceeded, h)
    /\ Z.of_nat (chat_rounds h) = 10%Z.
Proof.
  apply (proj2 (proj2 (review_rounds_bounded posix_runtime
           (world_requests call_list_changed_files) "staged" None None
           EmptyString [] 10%Z eq_refl))).
  - exists "s"%char, "ecret". reflexivity.
  - lia.
  - intros h messages. eexists _, _. split; [reflexivity | discriminate].
  - intros h messages m ms tc Hchat Hin messages' h'.
    inversion Hchat; subst. destruct Hin as [<- | []].
    eexists _, _. reflexivity.
Defined.

(** C1 (as stated) fails, in two ways, under the default cap of 10 and a
    model that asks for a tool on every round.  Without the credential the
    call returns the configuration error and sends no request at all.  And
    with the credential, a model that asks for [read_files] with the JSON
    array [[]] as arguments makes the dispatcher call [.get] on a list: the
    [AttributeError] is caught nowhere and ends the review in the first
    round, without the iteration-exceeded text. *)
Lemma review_ends_before_the_cap :
  (max_iterations world_no_credential = Ok 10%Z
   /\ (forall h messages,
         chat_create world_no_credential h messages
         = Ok [ {| content := None;
                   tool_calls := [call_list_changed_files] |} ])
   /\ @run_agentic_review posix_runtime world_no_credential "staged" None
        None EmptyString []
      = (Ok missing_credential, []))
  /\ (max_iterations (world_requests call_read_files_array) = Ok 10%Z
      /\ (forall h messages,
            chat_create (world_requests call_read_files_array) h messages
            = Ok [ {| content := None;
                      tool_calls := [call_read_files_array] |} ])
      /\ exists h,
           @run_agentic_review posix_runtime
              (world_requests call_read_files_array) "staged" None None
              EmptyString []
           = (Raise (AttributeError "'list' object has no attribute 'get'"),
              h)
           /\ chat_rounds h = 1).
Proof.
  split.
  - repeat split.
  - split; [reflexivity |]. split; [reflexivity |].
    eexists. split; reflexivity.
Qed.

(** A third way out before the cap: without a [git] executable the first
    [list_changed_files] raises (the defect of C10). *)
Lemma review_aborts_without_git :
  exists h,
    @run_agentic_review posix_runtime world_no_git "staged" None None
       EmptyString []
    = (Raise (FileNotFoundError "[Errno 2] No such file or directory: 'git'"),
       h)
    /\ chat_rounds h = 1.
Proof. eexists. split; reflexivity. Qed.

(** C2 (as amended).  With the credential set and a cap of at least 1: if
    the first response of the model carries no tool-call request, the call
    ends after exactly one chat-completion request and returns the text of
    that response unchanged when the text is not empty, and the fixed text
    [No review generated.] when the response has no text or an empty one. *)
Theorem first_answer_returned :
  forall (RT : Runtime) (W : World) (diff_target : string)
         (context_files focus_files : option (list string))
         (task_description : string) (h0 : log) (n : Z),
    has_credential W ->
    max_iterations W = Ok n ->
    (1 <= n)%Z ->
    exists messages h1,
      prepare_messages W diff_target context_files focus_files
                       task_description h0 = (Ok messages, h1)
      /\ chat_rounds h1 = chat_rounds h0
      /\ forall m ms,
           chat_create W h1 messages = Ok (m :: ms) ->
           tool_calls m = [] ->
           exists text,
             run_agentic_review W diff_target context_files focus_files
                                task_description h0
             = (Ok text, Py.append h1 (EChat messages))
             /\ chat_rounds (Py.append h1 (EChat messages))
                = chat_rounds h0 + 1
             /\ (forall t, content m = Some t -> t <> EmptyString ->
                           text = t)
             /\ (content m = None \/ content m = Some EmptyString ->
                 text = "No review generated.").
Proof.
  intros RT W diff_target context_files focus_files task_description h0 n
         (c & key & Hkey) Hcap Hn.
  destruct (prepare_messages_returns W diff_target context_files focus_files
              task_description h0) as (messages & h1 & Eprep & Hquiet).
  exists messages, h1. split; [exact Eprep |]. split; [exact Hquiet |].
  intros m ms Echat Ecalls.
  eexists. split; [| split; [| split]].
  - unfold run_agentic_review. rewrite Hkey.
    rewrite bind_eq, Eprep, bind_eq. unfold lift. rewrite Hcap.
    destruct (Z.to_nat n) as [| k] eqn:Ek; [lia |].
    eapply review_loop_first_answer; eassumption.
  - rewrite chat_rounds_append. simpl. lia.
  - intros t Ht Hne. rewrite Ht.
    destruct t; [contradiction | reflexivity].
  - intros [Hc | Hc]; rewrite Hc; reflexivity.
Qed.

(** The witness of C2: the model answers [LGTM] at once. *)
Lemma first_answer_returned_witness :
  exists h,
    @run_agentic_review posix_runtime (world_answers (Some "LGTM"))
       "staged" None None EmptyString []
    = (Ok "LGTM", h)
    /\ chat_rounds h = 1.
Proof.
  destruct (first_answer_returned posix_runtime (world_answers (Some "LGTM"))
              "staged" None None EmptyString [] 10%Z)
    as (messages & h1 & _ & _ & Hfirst).
  - exists "s"%char, "ecret". reflexivity.
  - reflexivity.
  - lia.
  - destruct (Hfirst {| content := Some "LGTM"; tool_calls := [] |} []
                eq_refl eq_refl)
      as (text & Erun & Hrounds & Htext & _).
    rewrite (Htext "LGTM" eq_refl ltac:(discriminate)) in Erun.
    eexists. split; [exact Erun | exact Hrounds].
Defined.

(** C2 (as stated) fails: when the first response has no tool call and an
    empty text, the call returns [No review generated.], not that text. *)
Lemma empty_answer_is_replaced :
  (forall h messages,
      chat_create (world_answers (Some EmptyString)) h messages
      = Ok [ {| content := Some EmptyString; tool_calls := [] |} ])
  /\ fst (@run_agentic_review posix_runtime
            (world_answers (Some EmptyString)) "staged" None None
            EmptyString [])
     = Ok "No review generated."
  /\ "No review generated." <> EmptyString.
Proof.
  split; [reflexivity |]. split; [reflexivity | discriminate].
Qed.

(** * Further properties of the code *)

(** ** Paths *)

(** A normalized path starts with a separator or has a colon as its second
    character. *)
Lemma normalize_file_uri_path_shape (path : string) :
  Py.startswith "/" (normalize_file_uri_path path) = true
  \/ String.get 1 (normalize_file_uri_path path) = Some ":"%char.
Proof.
  unfold normalize_file_uri_path.
  destruct (String.get 1 path) as [c |] eqn:Eget.
  - destruct (Ascii.eqb c ":") eqn:Ec.
    + apply Ascii.eqb_eq in Ec. subst c.
      destruct path as [| a [| b path]]; try discriminate.
      right. exact Eget.
    + rewrite andb_false_r.
      destruct (Py.startswith "/" path) eqn:Es; simpl;
        [left; exact Es | left; destruct path; reflexivity].
  - rewrite andb_false_r.
    destruct (Py.startswith "/" path) eqn:Es; simpl;
      [left; exact Es | left; destruct path; reflexivity].
Qed.

(** X1.  Normalizing a path twice is normalizing it once. *)
Theorem normalize_file_uri_path_idempotent :
  forall path,
    normalize_file_uri_path (normalize_file_uri_path path)
    = normalize_file_uri_path path.
Proof.
  intros path.
  destruct (normalize_file_uri_path_shape path) as [Hslash | Hdrive].
  - destruct (String.get 1 (normalize_file_uri_path path)) as [c |] eqn:Eget.
    + destruct (Ascii.eqb c ":") eqn:Ec.
      * apply Ascii.eqb_eq in Ec. subst c.
        apply normalize_drive_letter. exact Eget.
      * rewrite normalize_other, Hslash; [reflexivity |].
        rewrite Eget. intros H. inversion H. subst c. discriminate.
    + rewrite normalize_other, Hslash; [reflexivity |].
      rewrite Eget. discriminate.
  - apply normalize_drive_letter. exact Hdrive.
Qed.

(** X2.  Every path [parse_file_links] returns, in either list, starts with
    a separator or has a colon as its second character, whatever the
    document and whatever percent-decoding yields. *)
Theorem parse_file_links_paths_normalized :
  forall (RT : Runtime) (doc path : string),
    In path (fst (parse_file_links doc))
    \/ In path (snd (parse_file_links doc)) ->
    Py.startswith "/" path = true \/ String.get 1 path = Some ":"%char.
Proof.
  intros RT doc path [H | H].
  - rewrite parse_file_links_diff_files in H.
    apply in_map_iff in H. destruct H as (g & <- & _).
    apply normalize_file_uri_path_shape.
  - rewrite parse_file_links_read_files in H.
    apply filter_In in H. destruct H as [H _].
    apply in_map_iff in H. destruct H as (g & <- & _).
    apply normalize_file_uri_path_shape.
Qed.

(** The witness of X2. *)
Lemma parse_file_links_paths_normalized_witness :
  Py.startswith "/" "/q.md" = true \/ String.get 1 "/q.md" = Some ":"%char.
Proof.
  apply (parse_file_links_paths_normalized posix_runtime
           "render_diffs(file:///C:/x.py) [z](file:///q.md)" "/q.md").
  right. simpl. auto.
Defined.

(** ** Version control *)

Lemma posix_runtime_set_iter_ok : set_iter_ok posix_runtime.
Proof.
  intros l. split.
  - apply NoDup_nodup.
  - intros x. apply nodup_In.
Qed.

(** X3.  When both listings succeed, [get_changed_files] returns the union
    of the two: every non-empty name of the staged or of the unstaged
    listing, each exactly once, and nothing else. *)
Theorem changed_files_are_the_union :
  forall (RT : Runtime) (W : World) (h : log) (staged unstaged : string),
    set_iter_ok RT ->
    subprocess_run W h ["git"; "diff"; "--staged"; "--name-only"]
    = Ok staged ->
    subprocess_run W
      (Py.append h (EGit ["git"; "diff"; "--staged"; "--name-only"]))
      ["git"; "diff"; "--name-only"] = Ok unstaged ->
    exists files h',
      get_changed_files W h = (Ok files, h')
      /\ NoDup files
      /\ forall name,
           In name files <->
           name <> EmptyString
           /\ (In name (Py.split Py.LF (Py.strip staged))
               \/ In name (Py.split Py.LF (Py.strip unstaged))).
Proof.
  intros RT W h staged unstaged.
  apply (@get_changed_files_union RT W h staged unstaged).
Qed.

(** The witness of X3: [b.py] is staged and also changed in the working
    tree, and is listed once. *)
Lemma changed_files_are_the_union_witness :
  exists files h',
    @get_changed_files posix_runtime world_two_listings [] = (Ok files, h')
    /\ NoDup files
    /\ forall name,
         In name files <->
         name <> EmptyString
         /\ (In name (Py.split Py.LF (Py.strip ("a.py" ++ Py.nl ++ "b.py" ++ Py.nl)))
             \/ In name (Py.split Py.LF (Py.strip ("b.py" ++ Py.nl ++ "c.py" ++ Py.nl)))).
Proof.
  apply (changed_files_are_the_union posix_runtime world_two_listings []
           ("a.py" ++ Py.nl ++ "b.py" ++ Py.nl)
           ("b.py" ++ Py.nl ++ "c.py" ++ Py.nl)
           posix_runtime_set_iter_ok eq_refl eq_refl).
Defined.

(** X4.  When either listing exits with an error the result is the empty
    list: a failure of the unstaged listing also discards the staged names
    already read. *)
Theorem get_changed_files_error_discards_all :
  forall (RT : Runtime) (W : World) (h : log),
    (exists msg stderr,
        subprocess_run W h ["git"; "diff"; "--staged"; "--name-only"]
        = Raise (CalledProcessError msg stderr))
    \/ (exists staged msg stderr,
           subprocess_run W h ["git"; "diff"; "--staged"; "--name-only"]
           = Ok staged
           /\ subprocess_run W
                (Py.append h (EGit ["git"; "diff"; "--staged"; "--name-only"]))
                ["git"; "diff"; "--name-only"]
              = Raise (CalledProcessError msg stderr)) ->
    fst (get_changed_files W h) = Ok [].
Proof.
  intros RT W h [(msg & stderr & E) | (staged & msg & stderr & E1 & E2)];
    unfold get_changed_files, try_except, bind, run_git.
  - rewrite E. reflexivity.
  - rewrite E1, E2. reflexivity.
Qed.

(** The witness of X4: [a.py] is staged, the unstaged listing fails. *)
Lemma get_changed_files_error_discards_all_witness :
  fst (@get_changed_files posix_runtime world_unstaged_fails []) = Ok [].
Proof.
  apply (get_changed_files_error_discards_all posix_runtime
           world_unstaged_fails []).
  right. eexists _, _, _. split; reflexivity.
Defined.

Lemma join_cons_nonempty (sep : string) (c : ascii) (f : string)
    (rest : list string) :
  Py.join sep (String c f :: rest) <> EmptyString.
Proof. destruct rest; simpl; discriminate. Qed.

(** X5.  The [list_changed_files] tool never answers with the empty text:
    whenever it returns, the text is the fixed no-files sentence or starts
    with a non-empty file name. *)
Theorem list_changed_files_answer_not_empty :
  forall (RT : Runtime) (W : World) (arguments : json) (h h' : log)
         (text : string),
    _execute_tool W "list_changed_files" arguments h = (Ok text, h') ->
    text <> EmptyString.
Proof.
  intros RT W arguments h h' text E.
  change (_execute_tool W "list_changed_files" arguments)
    with (files <- get_changed_files W ;;
          match files with
          | [] => ret "No changed files found."
          | _ => ret (Py.join Py.nl files)
          end) in E.
  rewrite bind_eq in E.
  destruct (get_changed_files W h) as [[files | e] h1] eqn:Eg;
    [| discriminate].
  destruct files as [| f rest].
  - inversion E. discriminate.
  - inversion E. subst.
    assert (Hf : Py.truthy f = true).
    { unfold get_changed_files, try_except, bind, run_git, ret in Eg.
      destruct (subprocess_run W h _) as [staged | e1].
      - destruct (subprocess_run W _ _) as [unstaged | e2].
        + inversion Eg as [[Hfiles Hlog]].
          assert (Hin : In f (f :: rest)) by (left; reflexivity).
          rewrite <- Hfiles in Hin. apply filter_In in Hin. apply Hin.
        + destruct e2; inversion Eg.
      - destruct e1; inversion Eg. }
    destruct f as [| c f]; [discriminate |].
    apply (join_cons_nonempty Py.nl c f rest).
Qed.

(** The witness of X5: three changed files. *)
Lemma list_changed_files_answer_not_empty_witness :
  exists text h',
    @_execute_tool posix_runtime world_two_listings "list_changed_files"
       (JObj []) [] = (Ok text, h')
    /\ text <> EmptyString.
Proof.
  eexists _, _. split; [reflexivity |].
  eapply (list_changed_files_answer_not_empty posix_runtime
            world_two_listings (JObj []) []).
  reflexivity.
Defined.



(** ** Reading context files *)

Lemma foldM_app {A B} (f : A -> B -> M A) (l1 l2 : list B) :
  forall a h,
    foldM f (l1 ++ l2)%list a h
    = bind (foldM f l1 a) (fun a' => foldM f l2 a') h.
Proof.
  induction l1 as [| b l1 IH]; intros a h; cbn [foldM List.app].
  - reflexivity.
  - rewrite !bind_eq. destruct (f a b h) as [[a1 | e] h1]; [| reflexivity].
    rewrite IH, bind_eq. reflexivity.
Qed.

Lemma substring_prefix_length (n : nat) (s : string) :
  n <= String.length s ->
  String.length (String.substring 0 n s) = n
  /\ String.prefix (String.substring 0 n s) s = true.
Proof.
  revert s. induction n as [| n IH]; intros s Hn.
  - destruct s; split; reflexivity.
  - destruct s as [| c s]; simpl in Hn; [lia |].
    destruct (IH s ltac:(lia)) as [Hl Hp]. simpl.
    rewrite Hl, Hp. destruct (ascii_dec c c); [| contradiction].
    split; reflexivity.
Qed.

Section ContextFiles.

Context {RT : Runtime} (W : World).

(** What one file adds does not depend on what was read before it. *)
Lemma read_context_step_eq (filepath : json) (h : log) :
  exists piece,
    forall context,
      read_context_step W context filepath h
      = (Ok (context ++ piece), Py.append h (EOpen filepath)).
Proof.
  unfold read_context_step, try_except, bind, open_file, ret.
  destruct (open_read W h filepath) as [content | e].
  - eexists. intros context. reflexivity.
  - destruct e; eexists; intros context; reflexivity.
Qed.

Lemma foldM_read_context_step (items : list json) :
  forall h,
    exists text,
      forall context,
        foldM (read_context_step W) items context h
        = (Ok (context ++ text), (h ++ map EOpen items)%list).
Proof.
  induction items as [| item items IH]; intros h; cbn [foldM map].
  - exists EmptyString. intros context. unfold ret.
    rewrite app_nil_r.
    replace (context ++ EmptyString) with context; [reflexivity |].
    induction context as [| c context IHc]; simpl; congruence.
  - destruct (read_context_step_eq item h) as (piece & Hstep).
    destruct (IH (Py.append h (EOpen item))) as (text & Hrest).
    exists (piece ++ text). intros context.
    rewrite bind_eq, Hstep, Hrest. unfold Py.append.
    rewrite <- app_assoc, append_assoc. reflexivity.
Qed.

End ContextFiles.

(** X7.  [read_context_files] on a list never raises, whatever happens to
    the files: it opens every member once, in the order of the list, and
    does nothing else. *)
Theorem read_context_files_reads_each_once :
  forall (RT : Runtime) (W : World) (items : list json) (h : log),
    exists text,
      read_context_files W (JArr items) h
      = (Ok text, (h ++ map EOpen items)%list).
Proof.
  intros RT W items h. unfold read_context_files.
  rewrite bind_eq. unfold lift, py_iter.
  destruct (foldM_read_context_step W items h) as (text & H).
  exists text. rewrite (H EmptyString). reflexivity.
Qed.

(** X8.  Reading a list of files is reading its first part and then its
    second part: the text is the two texts one after the other. *)
Theorem read_context_files_app :
  forall (RT : Runtime) (W : World) (items1 items2 : list json)
         (h h1 h2 : log) (text1 text2 : string),
    read_context_files W (JArr items1) h = (Ok text1, h1) ->
    read_context_files W (JArr items2) h1 = (Ok text2, h2) ->
    read_context_files W (JArr (items1 ++ items2)) h
    = (Ok (text1 ++ text2), h2).
Proof.
  intros RT W items1 items2 h h1 h2 text1 text2 E1 E2.
  unfold read_context_files in *. rewrite bind_eq in *.
  unfold lift, py_iter in *.
  rewrite foldM_app, bind_eq, E1.
  destruct (foldM_read_context_step W items2 h1) as (t2 & H2).
  rewrite (H2 EmptyString) in E2. inversion E2; subst.
  rewrite (H2 text1). reflexivity.
Qed.

(** The witness of X8: a missing file, then a file that exists. *)
Lemma read_context_files_app_witness :
  exists text1 text2 h1 h2,
    @read_context_files posix_runtime world_files
       (JArr [JStr "gone.md"]) [] = (Ok text1, h1)
    /\ @read_context_files posix_runtime world_files
         (JArr [JStr "notes.md"]) h1 = (Ok text2, h2)
    /\ @read_context_files posix_runtime world_files
         (JArr [JStr "gone.md"; JStr "notes.md"]) []
       = (Ok (text1 ++ text2), h2).
Proof.
  eexists _, _, _, _. split; [reflexivity |]. split; [reflexivity |].
  eapply (read_context_files_app posix_runtime world_files
            [JStr "gone.md"] [JStr "notes.md"] []); reflexivity.
Defined.

(** X9.  A context file of more than 50000 characters is cut: what is kept
    is a prefix of the file of exactly 50000 characters, followed by the
    truncation marker; a file of at most 50000 characters is included
    whole. *)
Theorem read_context_files_truncates :
  forall (RT : Runtime) (W : World) (path content : string) (h : log),
    open_read W h (JStr path) = Ok content ->
    ((50000 < Py.len content)%Z ->
     exists kept,
       fst (read_context_files W (JArr [JStr path]) h)
       = Ok (Py.nlnl ++ "--- FILE: " ++ path ++ " ---" ++ Py.nl
             ++ kept ++ Py.nlnl ++ "... [TRUNCATED] ...")
       /\ Py.len kept = 50000%Z
       /\ String.prefix kept content = true)
    /\ ((Py.len content <= 50000)%Z ->
        fst (read_context_files W (JArr [JStr path]) h)
        = Ok (Py.nlnl ++ "--- FILE: " ++ path ++ " ---" ++ Py.nl
              ++ content)).
Proof.
  intros RT W path content h Hopen.
  assert (E : fst (read_context_files W (JArr [JStr path]) h)
              = Ok (Py.nlnl ++ "--- FILE: " ++ path ++ " ---" ++ Py.nl
                    ++ (if (50000 <? Py.len content)%Z
                        then Py.take 50000 content ++ Py.nlnl
                             ++ "... [TRUNCATED] ..."
                        else content))).
  { unfold read_context_files. rewrite bind_eq. unfold lift, py_iter.
    cbn [foldM]. rewrite bind_eq. unfold read_context_step.
    rewrite try_except_eq, bind_eq. unfold open_file. rewrite Hopen.
    reflexivity. }
  split.
  - intros Hlong. apply Z.ltb_lt in Hlong as Hb. rewrite Hb in E.
    exists (Py.take 50000 content). split; [exact E |].
    unfold Py.take, Py.len in *.
    destruct (substring_prefix_length (Z.to_nat 50000) content
                ltac:(lia)) as [Hl Hp].
    split; [rewrite Hl; lia | exact Hp].
  - intros Hshort. apply Z.ltb_ge in Hshort. rewrite Hshort in E. exact E.
Qed.

(** The witness of X9: a file of 60000 characters. *)
Lemma read_context_files_truncates_witness :
  exists kept,
    fst (@read_context_files posix_runtime world_files
           (JArr [JStr "big.txt"]) [])
    = Ok (Py.nlnl ++ "--- FILE: " ++ "big.txt" ++ " ---" ++ Py.nl
          ++ kept ++ Py.nlnl ++ "... [TRUNCATED] ...")
    /\ Py.len kept = 50000%Z
    /\ String.prefix kept (repeat_char "x" (Z.to_nat 60000)) = true.
Proof.
  apply (proj1 (read_context_files_truncates posix_runtime world_files
                  "big.txt" (repeat_char "x" (Z.to_nat 60000)) [] eq_refl)).
  vm_compute. reflexivity.
Defined.

(** X10.  [read_files] does not check that [paths] is a list.  Given a
    string it reads one file per character of the string; given [null], a
    number or a boolean it raises [TypeError] without opening anything. *)
Theorem read_files_paths_not_a_list :
  forall (RT : Runtime) (W : World) (h : log),
    (forall s,
        exists text,
          _execute_tool W "read_files" (JObj [("paths", JStr s)]) h
          = (Ok text,
             (h ++ map (fun c => EOpen (JStr (String c EmptyString)))
                       (list_ascii_of_string s))%list))
    /\ _execute_tool W "read_files" (JObj [("paths", JNull)]) h
       = (Raise (TypeError "'NoneType' object is not iterable"), h)
    /\ (forall n,
           _execute_tool W "read_files" (JObj [("paths", JNum n)]) h
           = (Raise (TypeError "'int' object is not iterable"), h))
    /\ (forall b,
           _execute_tool W "read_files" (JObj [("paths", JBool b)]) h
           = (Raise (TypeError "'bool' object is not iterable"), h)).
Proof.
  intros RT W h. split; [| repeat split; reflexivity].
  intros s.
  change (_execute_tool W "read_files" (JObj [("paths", JStr s)]) h)
    with (read_context_files W (JStr s) h).
  unfold read_context_files. rewrite bind_eq. unfold lift, py_iter.
  destruct (foldM_read_context_step W
              (map (fun c => JStr (String c EmptyString))
                   (list_ascii_of_string s)) h) as (text & H).
  exists text. rewrite (H EmptyString), map_map. reflexivity.
Qed.

(** ** What reaches the model *)

Lemma chat_requests_app (h h' : log) :
  chat_requests (h ++ h')%list = (chat_requests h ++ chat_requests h')%list.
Proof. unfold chat_requests. apply flat_map_app. Qed.

Lemma mute_ret {A} (a : A) : mute (ret a).
Proof. intros h r h' E. inversion E. reflexivity. Qed.

Lemma mute_raise {A} (e : exn) : mute (@raise A e).
Proof. intros h r h' E. inversion E. reflexivity. Qed.

Lemma mute_lift {A} (x : result A) : mute (lift x).
Proof. intros h r h' E. inversion E. reflexivity. Qed.

Lemma mute_bind {A B} (m : M A) (k : A -> M B) :
  mute m -> (forall a, mute (k a)) -> mute (bind m k).
Proof.
  intros Hm Hk h r h' E. rewrite bind_eq in E.
  destruct (m h) as [[a | e] h1] eqn:Em.
  - rewrite (Hk a _ _ _ E). eapply Hm; eassumption.
  - inversion E; subst. eapply Hm; eassumption.
Qed.

Lemma mute_try_except {A} (m : M A) (handler : exn -> option (M A)) :
  mute m -> (forall e k, handler e = Some k -> mute k) ->
  mute (try_except m handler).
Proof.
  intros Hm Hk h r h' E. rewrite try_except_eq in E.
  destruct (m h) as [[a | e] h1] eqn:Em.
  - inversion E; subst. eapply Hm; eassumption.
  - destruct (handler e) as [k |] eqn:Eh.
    + rewrite (Hk e k Eh _ _ _ E). eapply Hm; eassumption.
    + inversion E; subst. eapply Hm; eassumption.
Qed.

Lemma mute_foldM {A B} (f : A -> B -> M A) (l : list B) :
  (forall a b, mute (f a b)) -> forall a, mute (foldM f l a).
Proof.
  intros Hf. induction l as [| b l IH]; intros a; cbn [foldM].
  - apply mute_ret.
  - apply mute_bind; auto.
Qed.

Lemma mute_run_git (W : World) (argv : list string) : mute (run_git W argv).
Proof.
  intros h r h' E. unfold run_git in E. inversion E; subst.
  unfold Py.append. rewrite chat_requests_app. simpl. apply app_nil_r.
Qed.

Lemma mute_open_file (W : World) (path : json) : mute (open_file W path).
Proof.
  intros h r h' E. unfold open_file in E. inversion E; subst.
  unfold Py.append. rewrite chat_requests_app. simpl. apply app_nil_r.
Qed.

Create HintDb mute_db.
#[export] Hint Resolve mute_ret mute_raise mute_lift mute_run_git
  mute_open_file : mute_db.

(** Takes a computation apart along its binds, handlers and branches. *)
Ltac mute_auto :=
  repeat
    (match goal with
     | |- mute (bind _ _) => apply mute_bind; [| intros ?]
     | |- mute (try_except _ _) =>
         apply mute_try_except;
         [| let e := fresh "e" in
            let k := fresh "k" in
            let Hk := fresh "Hk" in
            intros e k Hk; try destruct e; inversion Hk; subst; clear Hk]
     | |- mute (foldM _ _ _) => apply mute_foldM; intros ? ?
     | |- mute (match ?x with _ => _ end) => destruct x
     | |- mute _ => solve [auto with mute_db]
     end).

Section Mute.

Context {RT : Runtime} (W : World).

Lemma mute_get_git_diff (target : string) : mute (get_git_diff W target).
Proof. unfold get_git_diff. mute_auto. Qed.

Lemma mute_get_changed_files : mute (get_changed_files W).
Proof. unfold get_changed_files. mute_auto. Qed.

Lemma mute_read_context_files (filepaths : json) :
  mute (read_context_files W filepaths).
Proof. unfold read_context_files, read_context_step. mute_auto. Qed.

Hint Resolve mute_get_git_diff mute_get_changed_files
  mute_read_context_files : mute_db.

Lemma mute_execute_tool (name : string) (arguments : json) :
  mute (_execute_tool W name arguments).
Proof. unfold _execute_tool. mute_auto. Qed.

Lemma mute_run_tool_call (messages : list message) (tc : tool_call) :
  mute (run_tool_call W messages tc).
Proof.
  unfold run_tool_call. apply mute_bind; [apply mute_execute_tool |].
  intros. apply mute_ret.
Qed.

Lemma mute_get_scoped_diff (files : list string) (target : string) :
  mute (get_scoped_diff W files target).
Proof.
  assert (Hnone : chat_requests (scoped_events target files) = []).
  { unfold scoped_events. induction files as [| f fs IH]; [reflexivity |].
    exact IH. }
  intros h r h' E. rewrite get_scoped_diff_eq in E. inversion E; subst.
  rewrite chat_requests_app, Hnone. apply app_nil_r.
Qed.

Hint Resolve mute_get_scoped_diff : mute_db.

Lemma mute_process_artifact_with_links (filepath diff_target : string) :
  mute (process_artifact_with_links W filepath diff_target).
Proof.
  unfold process_artifact_with_links, re_sub, replace_render_diff,
    linked_file_step.
  mute_auto.
Qed.

Hint Resolve mute_process_artifact_with_links : mute_db.

Lemma mute_prepare_messages (diff_target : string)
    (context_files focus_files : option (list string))
    (task_description : string) :
  mute (prepare_messages W diff_target context_files focus_files
                         task_description).
Proof.
  unfold prepare_messages, load_artifacts, load_artifact, prefetch_diff.
  mute_auto.
Qed.

End Mute.

(** X11.  No tool sends a chat-completion request: whatever its name and
    arguments, and whether it returns or raises, dispatching a tool call
    leaves the requests of the log as they were. *)
Theorem tools_send_no_request :
  forall (RT : Runtime) (W : World) (name : string) (arguments : json)
         (h h' : log) (r : result string),
    _execute_tool W name arguments h = (r, h') ->
    chat_requests h' = chat_requests h.
Proof.
  intros RT W name arguments h h' r E.
  eapply mute_execute_tool. exact E.
Qed.

(** The witness of X11. *)
Lemma tools_send_no_request_witness :
  chat_requests
    [EChat []; EGit ["git"; "diff"; "--staged"; "--name-only"];
     EGit ["git"; "diff"; "--name-only"]]
  = chat_requests [EChat []].
Proof.
  eapply (tools_send_no_request posix_runtime world_two_listings
            "list_changed_files" (JObj []) [EChat []]).
  reflexivity.
Defined.

(** ** The transcript *)

(** The tool calls of one model turn, dispatched in order. *)
Lemma foldM_run_tool_call_results :
  forall (RT : Runtime) (W : World) (calls : list tool_call)
         (messages messages' : list message) (h h' : log),
    foldM (run_tool_call W) calls messages h = (Ok messages', h') ->
    exists results,
      messages' = (messages ++ results)%list
      /\ map tool_result_id results
         = map (fun tc => Some (tc_id tc)) calls.
Proof.
  intros RT W calls. induction calls as [| tc calls IH];
    intros messages messages' h h' E; cbn [foldM] in E.
  - inversion E; subst. exists []. rewrite app_nil_r. split; reflexivity.
  - rewrite bind_eq in E. unfold run_tool_call at 1 in E.
    rewrite bind_eq in E.
    destruct (_execute_tool W (tc_name tc) _ h) as [[text | e] h1];
      [| discriminate].
    unfold ret in E. apply IH in E. destruct E as (results & -> & Hids).
    exists (MTool (tc_id tc) text :: results). unfold Py.append.
    rewrite <- app_assoc. split; [reflexivity |].
    simpl. rewrite Hids. reflexivity.
Qed.

(** X12.  When the tool calls of a model turn have all been dispatched, the
    transcript has grown by exactly one tool-result message per call, in
    the order of the calls, each under the identifier of its call. *)
Theorem tool_results_follow_calls :
  forall (RT : Runtime) (W : World) (calls : list tool_call)
         (messages messages' : list message) (h h' : log),
    foldM (run_tool_call W) calls messages h = (Ok messages', h') ->
    exists results,
      messages' = (messages ++ results)%list
      /\ map tool_result_id results
         = map (fun tc => Some (tc_id tc)) calls.
Proof. exact foldM_run_tool_call_results. Qed.

(** The witness of X12: two calls in one turn. *)
Lemma tool_results_follow_calls_witness :
  exists messages' h' results,
    foldM (@run_tool_call posix_runtime world_two_listings)
          [call_list_changed_files; call_diff_bad_json] [MUser "review"] []
    = (Ok messages', h')
    /\ messages' = ([MUser "review"] ++ results)%list
    /\ map tool_result_id results = [Some "call_1"; Some "call_7"].
Proof.
  destruct (tool_results_follow_calls posix_runtime world_two_listings
              [call_list_changed_files; call_diff_bad_json] [MUser "review"]
              _ [] _ eq_refl) as (results & Hm & Hids).
  eexists _, _, results. split; [reflexivity |].
  split; [exact Hm | exact Hids].
Defined.

Lemma transcript_run_prefix (messages : list message)
    (requests : list (list message)) :
  transcript_run messages requests ->
  forall request, In request requests ->
                  exists added, request = (messages ++ added)%list.
Proof.
  induction 1 as [messages | messages | messages m results rest Hids Hrun IH];
    intros request Hin.
  - contradiction.
  - destruct Hin as [<- | []]. exists []. rewrite app_nil_r. reflexivity.
  - destruct Hin as [<- | Hin].
    + exists []. rewrite app_nil_r. reflexivity.
    + destruct (IH request Hin) as (added & ->).
      exists (MAssistant m :: results ++ added)%list.
      rewrite <- app_assoc. reflexivity.
Qed.

(** The requests of a loop, by induction on the rounds left. *)
Lemma review_loop_requests :
  forall (RT : Runtime) (W : World) (n : nat) (messages : list message)
         (h h' : log) (r : result string),
    review_loop W n messages h = (r, h') ->
    exists requests,
      chat_requests h' = (chat_requests h ++ requests)%list
      /\ transcript_run messages requests.
Proof.
  intros RT W n. induction n as [| n IH]; intros messages h h' r E;
    cbn [review_loop] in E.
  - inversion E; subst. exists []. rewrite app_nil_r.
    split; [reflexivity | constructor].
  - rewrite bind_eq, try_except_eq, bind_eq in E. unfold chat in E.
    assert (Hsent : chat_requests (Py.append h (EChat messages))
                    = (chat_requests h ++ [messages])%list).
    { unfold Py.append. rewrite chat_requests_app. reflexivity. }
    destruct (chat_create W h messages) as [choices | e];
      cbn -[foldM review_loop] in E.
    + destruct choices as [| m ms].
      { inversion E; subst. exists [messages].
        split; [exact Hsent | constructor]. }
      destruct (tool_calls m) as [| tc calls] eqn:Ecalls.
      { exists [messages]. split; [| constructor].
        destruct (content m) as [[| c text] |]; inversion E; subst;
          exact Hsent. }
      rewrite bind_eq in E.
      destruct (foldM (run_tool_call W) (tc :: calls) _ _)
        as [[messages' | e] h2] eqn:Ef.
      * pose proof (mute_foldM _ _ (mute_run_tool_call W) _ _ _ _ Ef)
          as Hmute.
        apply foldM_run_tool_call_results in Ef.
        destruct Ef as (results & -> & Hids).
        apply IH in E. destruct E as (rest & Hrest & Hrun).
        exists (messages :: rest). split.
        -- rewrite Hrest, Hmute, Hsent, <- app_assoc. reflexivity.
        -- apply run_round with (m := m) (results := results).
           ++ rewrite Ecalls. exact Hids.
           ++ unfold Py.append in Hrun. rewrite <- app_assoc in Hrun.
              exact Hrun.
      * pose proof (mute_foldM _ _ (mute_run_tool_call W) _ _ _ _ Ef)
          as Hmute.
        inversion E; subst. exists [messages].
        split; [rewrite Hmute; exact Hsent | constructor].
    + inversion E; subst. exists [messages].
      split; [exact Hsent | constructor].
Qed.

(** X13.  The loop only ever extends its transcript.  The requests it
    sends are: the transcript it starts from; then, after every model turn
    that asks for tools, that transcript extended by the assistant message
    and one tool-result message per call, under the identifiers of the
    calls; and so on.  Nothing is removed or rewritten between requests. *)
Theorem review_loop_transcripts :
  forall (RT : Runtime) (W : World) (n : nat) (messages : list message)
         (h h' : log) (r : result string),
    review_loop W n messages h = (r, h') ->
    exists requests,
      chat_requests h' = (chat_requests h ++ requests)%list
      /\ transcript_run messages requests.
Proof. exact review_loop_requests. Qed.

(** The witness of X13: two rounds of a model that keeps asking. *)
Lemma review_loop_transcripts_witness :
  exists requests,
    chat_requests
      (snd (@review_loop posix_runtime
              (world_requests call_list_changed_files) 2 [MUser "review"] []))
    = (chat_requests [] ++ requests)%list
    /\ transcript_run [MUser "review"] requests.
Proof.
  eapply (review_loop_transcripts posix_runtime
            (world_requests call_list_changed_files) 2 [MUser "review"] []).
  apply surjective_pairing.
Defined.

(** X14.  Every request of a review carries the system prompt first and the
    same first user message second; only what follows them differs from
    request to request. *)
Theorem requests_start_with_the_prompt :
  forall (RT : Runtime) (W : World) (diff_target : string)
         (context_files focus_files : option (list string))
         (task_description : string) (h0 h : log) (r : result string),
    run_agentic_review W diff_target context_files focus_files
                       task_description h0 = (r, h) ->
    exists user_message requests,
      chat_requests h = (chat_requests h0 ++ requests)%list
      /\ forall request,
           In request requests ->
           exists rest,
             request
             = MSystem system_prompt :: MUser user_message :: rest.
Proof.
  intros RT W diff_target context_files focus_files task_description h0 h r E.
  unfold run_agentic_review in E.
  assert (Hnone : forall h1,
             chat_requests h1 = chat_requests h0 ->
             exists user_message requests,
               chat_requests h1 = (chat_requests h0 ++ requests)%list
               /\ forall request,
                    In request requests ->
                    exists rest,
                      request
                      = MSystem system_prompt :: MUser user_message :: rest).
  { intros h1 H1. exists EmptyString, []. rewrite app_nil_r.
    split; [exact H1 | intros ? []]. }
  destruct (getenv W "ZHIPU_API_KEY") as [[| c key] |];
    try (inversion E; subst; apply Hnone; reflexivity).
  rewrite bind_eq in E.
  destruct (prepare_messages W diff_target context_files focus_files
              task_description h0) as [[messages | e] h1] eqn:Eprep.
  - pose proof (mute_prepare_messages W _ _ _ _ _ _ _ Eprep) as Hmute.
    assert (Hinit : exists user_message,
               messages = initial_messages user_message).
    { destruct (load_artifacts_eq W diff_target context_files h0)
        as (ctx & h1' & Eload).
      unfold prepare_messages in Eprep. rewrite bind_eq, Eload in Eprep.
      rewrite bind_eq, prefetch_diff_eq in Eprep.
      inversion Eprep. eexists. reflexivity. }
    destruct Hinit as (user_message & ->).
    rewrite bind_eq in E. unfold lift in E.
    destruct (max_iterations W) as [n | e].
    + apply review_loop_requests in E.
      destruct E as (requests & Hreq & Hrun).
      exists user_message, requests. split; [rewrite Hreq, Hmute; reflexivity |].
      intros request Hin.
      destruct (transcript_run_prefix _ _ Hrun request Hin) as (added & ->).
      exists added. reflexivity.
    + inversion E; subst. apply Hnone. exact Hmute.
  - pose proof (mute_prepare_messages W _ _ _ _ _ _ _ Eprep) as Hmute.
    inversion E; subst. apply Hnone. exact Hmute.
Qed.

(** The witness of X14: a review of ten rounds. *)
Lemma requests_start_with_the_prompt_witness :
  exists user_message requests,
    chat_requests
      (snd (@run_agentic_review posix_runtime
              (world_requests call_list_changed_files) "staged" None None
              EmptyString []))
    = (chat_requests [] ++ requests)%list
    /\ forall request,
         In request requests ->
         exists rest,
           request = MSystem system_prompt :: MUser user_message :: rest.
Proof.
  eapply (requests_start_with_the_prompt posix_runtime
            (world_requests call_list_changed_files) "staged" None None
            EmptyString []).
  apply surjective_pairing.
Defined.

(** ** Ways out of a review *)

Section Exits.

Context {RT : Runtime} (W : World).

(** With the credential set, a review is its context phase, the reading of
    the cap and the loop. *)
Lemma run_agentic_review_eq (diff_target : string)
    (context_files focus_files : option (list string))
    (task_description : string) (h0 h1 : log) (messages : list message) :
  has_credential W ->
  prepare_messages W diff_target context_files focus_files task_description
                   h0 = (Ok messages, h1) ->
  run_agentic_review W diff_target context_files focus_files
                     task_description h0
  = match max_iterations W with
    | Ok n => review_loop W (Z.to_nat n) messages h1
    | Raise e => (Raise e, h1)
    end.
Proof.
  intros (c & key & Hkey) Eprep. unfold run_agentic_review.
  rewrite Hkey, bind_eq, Eprep, bind_eq. unfold lift.
  destruct (max_iterations W); reflexivity.
Qed.

End Exits.

(** X15.  A request that fails is not retried: when the first request
    raises, for whatever reason, the review returns the text
    [Error calling GLM-4.7 API: <e>] after that one request and raises
    nothing. *)
Theorem transport_error_is_reported :
  forall (RT : Runtime) (W : World) (diff_target : string)
         (context_files focus_files : option (list string))
         (task_description : string) (h0 : log) (n : Z),
    has_credential W ->
    max_iterations W = Ok n ->
    (1 <= n)%Z ->
    exists messages h1,
      prepare_messages W diff_target context_files focus_files
                       task_description h0 = (Ok messages, h1)
      /\ forall e,
           chat_create W h1 messages = Raise e ->
           run_agentic_review W diff_target context_files focus_files
                              task_description h0
           = (Ok ("Error calling GLM-4.7 API: " ++ exn_str e),
              Py.append h1 (EChat messages)).
Proof.
  intros RT W diff_target context_files focus_files task_description h0 n
         Hkey Hcap Hn.
  destruct (prepare_messages_returns W diff_target context_files focus_files
              task_description h0) as (messages & h1 & Eprep & _).
  exists messages, h1. split; [exact Eprep |].
  intros e Echat.
  rewrite (run_agentic_review_eq W _ _ _ _ _ _ _ Hkey Eprep), Hcap.
  destruct (Z.to_nat n) as [| k] eqn:Ek; [lia |].
  cbn [review_loop]. rewrite bind_eq, try_except_eq, bind_eq.
  unfold chat. rewrite Echat. reflexivity.
Qed.

(** The witness of X15: the endpoint cannot be reached. *)
Lemma transport_error_is_reported_witness :
  exists h,
    @run_agentic_review posix_runtime world_endpoint_down "staged" None None
       EmptyString []
    = (Ok "Error calling GLM-4.7 API: Connection error.", h)
    /\ chat_rounds h = 1.
Proof.
  destruct (transport_error_is_reported posix_runtime world_endpoint_down
              "staged" None None EmptyString [] 10%Z)
    as (messages & h1 & Eprep & Hfail).
  - exists "s"%char, "ecret". reflexivity.
  - reflexivity.
  - lia.
  - rewrite (Hfail (OtherException "Connection error.") eq_refl).
    eexists. split; [reflexivity |].
    rewrite chat_rounds_append.
    apply (quiet_prepare_messages world_endpoint_down) in Eprep.
    rewrite Eprep. reflexivity.
Defined.

(** X16.  A response without choices is not handled: reading its first
    choice raises [IndexError] outside the [try], and the exception leaves
    the review. *)
Theorem empty_choices_raise :
  forall (RT : Runtime) (W : World) (diff_target : string)
         (context_files focus_files : option (list string))
         (task_description : string) (h0 : log) (n : Z),
    has_credential W ->
    max_iterations W = Ok n ->
    (1 <= n)%Z ->
    exists messages h1,
      prepare_messages W diff_target context_files focus_files
                       task_description h0 = (Ok messages, h1)
      /\ (chat_create W h1 messages = Ok [] ->
          run_agentic_review W diff_target context_files focus_files
                             task_description h0
          = (Raise (IndexError "list index out of range"),
             Py.append h1 (EChat messages))).
Proof.
  intros RT W diff_target context_files focus_files task_description h0 n
         Hkey Hcap Hn.
  destruct (prepare_messages_returns W diff_target context_files focus_files
              task_description h0) as (messages & h1 & Eprep & _).
  exists messages, h1. split; [exact Eprep |].
  intros Echat.
  rewrite (run_agentic_review_eq W _ _ _ _ _ _ _ Hkey Eprep), Hcap.
  destruct (Z.to_nat n) as [| k] eqn:Ek; [lia |].
  cbn [review_loop]. rewrite bind_eq, try_except_eq, bind_eq.
  unfold chat. rewrite Echat. reflexivity.
Qed.

(** The witness of X16. *)
Lemma empty_choices_raise_witness :
  fst (@run_agentic_review posix_runtime world_no_choices "staged" None None
         EmptyString [])
  = Raise (IndexError "list index out of range").
Proof.
  destruct (empty_choices_raise posix_runtime world_no_choices
              "staged" None None EmptyString [] 10%Z)
    as (messages & h1 & Eprep & Hempty).
  - exists "s"%char, "ecret". reflexivity.
  - reflexivity.
  - lia.
  - rewrite (Hempty eq_refl). reflexivity.
Defined.



(** ** Artifacts *)

Lemma append_nil_r (s : string) : s ++ EmptyString = s.
Proof. induction s as [| c s IH]; simpl; congruence. Qed.

Lemma scan_without_match match_at (s : string) :
  finditer match_at s = [] ->
  scan match_at 0 s = map Lit (list_ascii_of_string s).
Proof.
  unfold finditer. induction s as [| c s IH]; intros H; [reflexivity |].
  cbn [scan] in *. destruct (match_at (String c s)) as [[g rest] |].
  - discriminate.
  - cbn [flat_map List.app list_ascii_of_string map] in *.
    rewrite (IH H). reflexivity.
Qed.

Lemma re_sub_without_match match_at (repl : string -> M string)
    (s : string) (h : log) :
  finditer match_at s = [] ->
  re_sub match_at repl s h = (Ok s, h).
Proof.
  intros H. unfold re_sub. rewrite (scan_without_match _ _ H).
  assert (G : forall l out,
             foldM (fun out p =>
                      match p with
                      | Lit c => ret (out ++ String c EmptyString)
                      | Hit g => r <- repl g ;; ret (out ++ r)
                      end) (map Lit l) out h
             = (Ok (out ++ string_of_list_ascii l), h)).
  { induction l as [| c l IH]; intros out; cbn [foldM map].
    - simpl. rewrite append_nil_r. reflexivity.
    - rewrite bind_eq. unfold ret at 1. rewrite IH.
      simpl. rewrite append_assoc. reflexivity. }
  rewrite G, string_of_list_ascii_of_string. reflexivity.
Qed.

(** X18.  An artifact without a render-diff directive and without a file
    link comes back exactly as it was read, with an empty scoped diff; git
    is not run and no other file is opened. *)
Theorem artifact_without_links_is_unchanged :
  forall (RT : Runtime) (W : World) (filepath diff_target text : string)
         (h : log),
    open_read W h (JStr filepath) = Ok text ->
    finditer match_render_diffs text = [] ->
    finditer match_link text = [] ->
    process_artifact_with_links W filepath diff_target h
    = (Ok (text, EmptyString), Py.append h (EOpen (JStr filepath))).
Proof.
  intros RT W filepath diff_target text h Hopen Hdiffs Hlinks.
  assert (Hparse : parse_file_links text = ([], [])).
  { unfold parse_file_links. rewrite Hdiffs, Hlinks. reflexivity. }
  unfold process_artifact_with_links.
  rewrite bind_eq, try_except_eq, bind_eq. unfold open_file.
  rewrite Hopen. unfold ret at 1. cbv beta iota.
  rewrite Hparse. cbn [firstn].
  rewrite bind_eq. cbn [get_scoped_diff]. unfold ret at 1.
  rewrite bind_eq, (re_sub_without_match _ _ _ _ Hdiffs).
  rewrite bind_eq. cbn [foldM]. unfold ret.
  rewrite append_nil_r. reflexivity.
Qed.

(** The witness of X18. *)
Lemma artifact_without_links_is_unchanged_witness :
  @process_artifact_with_links posix_runtime world_files "notes.md"
     "staged" []
  = (Ok ("Plain text, no links.", EmptyString), [EOpen (JStr "notes.md")]).
Proof.
  apply (artifact_without_links_is_unchanged posix_runtime world_files
           "notes.md" "staged" "Plain text, no links." []); reflexivity.
Defined.

Section ArtifactEvents.

Context {RT : Runtime} (W : World).

Lemma replace_render_diff_eq (diff_target g : string) (h : log) :
  exists r,
    replace_render_diff W diff_target g h
    = (Ok r,
       (h ++ scoped_events diff_target
               [normalize_file_uri_path (unquote g)])%list).
Proof.
  unfold replace_render_diff. rewrite bind_eq, get_scoped_diff_eq.
  destruct (Py.truthy _); eexists; reflexivity.
Qed.

Lemma re_sub_events (diff_target : string) (pieces : list piece) :
  forall out h,
    snd (foldM (fun out p =>
                  match p with
                  | Lit c => ret (out ++ String c EmptyString)
                  | Hit g => r <- replace_render_diff W diff_target g ;;
                             ret (out ++ r)
                  end) pieces out h)
    = (h ++ scoped_events diff_target
              (map (fun g => normalize_file_uri_path (unquote g))
                   (flat_map (fun p => match p with
                                       | Hit g => [g]
                                       | Lit _ => []
                                       end) pieces)))%list
    /\ exists text,
         fst (foldM (fun out p =>
                       match p with
                       | Lit c => ret (out ++ String c EmptyString)
                       | Hit g => r <- replace_render_diff W diff_target g ;;
                                  ret (out ++ r)
                       end) pieces out h) = Ok text.
Proof.
  induction pieces as [| p pieces IH]; intros out h; cbn [foldM].
  - simpl. rewrite app_nil_r. split; [reflexivity | eexists; reflexivity].
  - rewrite bind_eq. destruct p as [c | g].
    + unfold ret at 1. apply IH.
    + destruct (replace_render_diff_eq diff_target g h) as (r & Er).
      rewrite bind_eq, Er. unfold ret at 1.
      destruct (IH (out ++ r)
                   (h ++ scoped_events diff_target
                           [normalize_file_uri_path (unquote g)])%list)
        as [Hlog Hval].
      split; [| exact Hval].
      rewrite Hlog. cbn [flat_map map List.app scoped_events].
      rewrite <- app_assoc. reflexivity.
Qed.

Lemma linked_files_events (paths : list string) :
  forall linked_context h,
    exists text,
      foldM (linked_file_step W) paths linked_context h
      = (Ok text, (h ++ map (fun p => EOpen (JStr p)) paths)%list).
Proof.
  induction paths as [| p paths IH]; intros linked_context h; cbn [foldM map].
  - exists linked_context. unfold ret. rewrite app_nil_r. reflexivity.
  - rewrite bind_eq. unfold linked_file_step at 1.
    rewrite try_except_eq, bind_eq. unfold open_file.
    destruct (open_read W h (JStr p)) as [file_content | e];
      unfold ret at 1;
      match goal with
      | |- context [foldM _ paths ?c ?h1] =>
          destruct (IH c h1) as (text & E); rewrite E
      end;
      exists text; unfold Py.append; rewrite <- app_assoc; reflexivity.
Qed.

End ArtifactEvents.

(** X19.  Processing an artifact that can be read opens it, runs the diff
    of every directive file twice (once for the combined scoped diff, once
    more for the inline replacement of each directive), and then opens the
    first five linked files and no more, in that order, whatever the
    outcomes of these calls are. *)
Theorem process_artifact_events :
  forall (RT : Runtime) (W : World) (filepath diff_target text : string)
         (h : log),
    open_read W h (JStr filepath) = Ok text ->
    snd (process_artifact_with_links W filepath diff_target h)
    = (h ++ EOpen (JStr filepath)
          :: scoped_events diff_target (fst (parse_file_links text))
          ++ scoped_events diff_target (fst (parse_file_links text))
          ++ map (fun p => EOpen (JStr p))
                 (firstn 5 (snd (parse_file_links text))))%list.
Proof.
  intros RT W filepath diff_target text h Hopen.
  unfold process_artifact_with_links.
  rewrite bind_eq, try_except_eq, bind_eq. unfold open_file.
  rewrite Hopen. unfold ret at 1. cbv beta iota.
  pose proof (parse_file_links_diff_files text) as Hd.
  unfold finditer in Hd.
  destruct (parse_file_links text) as [diff_files read_files].
  cbn [fst snd] in *.
  rewrite bind_eq, get_scoped_diff_eq, bind_eq. unfold re_sub.
  destruct (re_sub_events W diff_target (scan match_render_diffs 0 text)
              EmptyString
              (Py.append h (EOpen (JStr filepath))
               ++ scoped_events diff_target diff_files)%list)
    as [Hlog (processed & Hval)].
  destruct (foldM _ (scan match_render_diffs 0 text) _ _)
    as [[processed' | e] h2]; [| discriminate].
  cbn [fst snd] in Hlog, Hval. subst h2.
  rewrite bind_eq.
  destruct (linked_files_events W (firstn 5 read_files) EmptyString
              ((Py.append h (EOpen (JStr filepath))
                ++ scoped_events diff_target diff_files)
               ++ scoped_events diff_target
                    (map (fun g => normalize_file_uri_path (unquote g))
                         (flat_map (fun p => match p with
                                             | Hit g => [g]
                                             | Lit _ => []
                                             end)
                                   (scan match_render_diffs 0 text))))%list)
    as (linked & Elinked).
  rewrite Elinked, <- Hd. unfold ret, Py.append. cbn [snd].
  rewrite <- !app_assoc. reflexivity.
Qed.

(** The witness of X19: [task.md] with one directive. *)
Lemma process_artifact_events_witness :
  snd (@process_artifact_with_links posix_runtime world_task_artifact
         "task.md" "staged" [])
  = [EOpen (JStr "task.md");
     EGit ["git"; "diff"; "--staged"; "--"; "/src/x.py"];
     EGit ["git"; "diff"; "--staged"; "--"; "/src/x.py"]].
Proof.
  apply (process_artifact_events posix_runtime world_task_artifact
           "task.md" "staged" "See render_diffs(file:///src/x.py)" []).
  reflexivity.
Defined.

(** ** The first message and the one-shot review *)

Section NoContext.

Context {RT : Runtime} (W : World).

Lemma foldM_load_missing_artifacts (diff_target : string)
    (artifacts : list string) :
  (forall h path, exists e, open_read W h path = Raise e) ->
  forall acc h,
    foldM (load_artifact W diff_target) artifacts acc h
    = (Ok acc, (h ++ map (fun a => EOpen (JStr a)) artifacts)%list).
Proof.
  intros Hmissing. induction artifacts as [| a rest IH]; intros acc h;
    cbn [foldM map].
  - unfold ret. rewrite app_nil_r. reflexivity.
  - rewrite bind_eq. unfold load_artifact at 1. destruct acc as [ctx all].
    rewrite bind_eq, try_except_eq, bind_eq. unfold open_file.
    destruct (Hmissing h (JStr a)) as (e & ->).
    unfold ret at 1. unfold ret at 1. rewrite IH.
    unfold Py.append. rewrite <- app_assoc. reflexivity.
Qed.

End NoContext.

(** X20.  With no artifact that can be read, no focus list and no task
    description, the review computes no diff at all: it only tries to open
    the three default artifacts and the context files, and its first user
    message is the fixed sentence that tells the model to find the changes
    with [list_changed_files] and [get_uncommitted_changes]. *)
Theorem review_without_context_defers_to_tools :
  forall (RT : Runtime) (W : World) (diff_target : string)
         (context_files focus_files : option (list string)) (h0 : log),
    (forall h path, exists e, open_read W h path = Raise e) ->
    focus_files = None \/ focus_files = Some [] ->
    prepare_messages W diff_target context_files focus_files EmptyString h0
    = (Ok [MSystem system_prompt;
           MUser "Please review the current code changes. Use list_changed_files and get_uncommitted_changes to see what's been modified."],
       (h0 ++ map (fun a => EOpen (JStr a))
                  (default_artifacts
                   ++ match context_files with
                      | Some l => l
                      | None => []
                      end))%list).
Proof.
  intros RT W diff_target context_files focus_files h0 Hmissing Hfocus.
  unfold prepare_messages, load_artifacts.
  rewrite bind_eq, (foldM_load_missing_artifacts W diff_target _ Hmissing).
  destruct Hfocus as [-> | ->]; cbn [select_files_to_diff];
    rewrite bind_eq; reflexivity.
Qed.

(** The witness of X20. *)
Lemma review_without_context_defers_to_tools_witness :
  @prepare_messages posix_runtime (world_answers None) "staged"
     (Some ["notes.md"]) None EmptyString []
  = (Ok [MSystem system_prompt;
         MUser "Please review the current code changes. Use list_changed_files and get_uncommitted_changes to see what's been modified."],
     [EOpen (JStr "implementation_plan.md"); EOpen (JStr "task.md");
      EOpen (JStr "walkthrough.md"); EOpen (JStr "notes.md")]).
Proof.
  apply (review_without_context_defers_to_tools posix_runtime
           (world_answers None) "staged" (Some ["notes.md"]) None []).
  - intros h path. eexists. reflexivity.
  - left. reflexivity.
Defined.

(** X21.  [generate_critique] never raises and touches neither git nor the
    file system.  Without the credential it returns the configuration error
    and sends nothing; with it, it sends exactly one request, and a failed
    request or a response without choices comes back as text starting with
    [Error calling GLM-4.7 API: ]. *)
Theorem generate_critique_outcome :
  forall (W : World) (diff context : string) (h : log),
    let request :=
      [MSystem critique_system_prompt;
       MUser (critique_user_prompt diff context)] in
    (~ has_credential W ->
     generate_critique W diff context h = (Ok (Some missing_credential), h))
    /\ (has_credential W ->
        exists answer,
          generate_critique W diff context h
          = (Ok answer, Py.append h (EChat request))
          /\ (forall e,
                 chat_create W h request = Raise e ->
                 answer = Some ("Error calling GLM-4.7 API: " ++ exn_str e))
          /\ (chat_create W h request = Ok [] ->
              answer
              = Some "Error calling GLM-4.7 API: list index out of range")
          /\ (forall m ms,
                 chat_create W h request = Ok (m :: ms) ->
                 answer = content m)).
Proof.
  intros W diff context h request. unfold generate_critique. split.
  - intros Hno.
    destruct (getenv W "ZHIPU_API_KEY") as [[| c key] |] eqn:Ek;
      try reflexivity.
    exfalso. apply Hno. exists c, key. exact Ek.
  - intros (c & key & ->).
    rewrite try_except_eq, bind_eq. unfold chat. fold request.
    destruct (chat_create W h request) as [[| m ms] | e].
    + eexists. split; [reflexivity |].
      repeat split; try discriminate; reflexivity.
    + eexists. split; [reflexivity |].
      repeat split; try discriminate.
      intros m' ms' H. inversion H. reflexivity.
    + eexists. split; [reflexivity |].
      repeat split; try discriminate.
      intros e' H. inversion H. reflexivity.
Qed.

(** The witness of X21: the endpoint answers without choices. *)
Lemma generate_critique_outcome_witness :
  generate_critique world_no_choices "+x" EmptyString []
  = (Ok (Some "Error calling GLM-4.7 API: list index out of range"),
     [EChat [MSystem critique_system_prompt;
             MUser (critique_user_prompt "+x" EmptyString)]]).
Proof.
  destruct (proj2 (generate_critique_outcome world_no_choices "+x"
                     EmptyString []))
    as (answer & E & _ & Hempty & _).
  - exists "s"%char, "ecret". reflexivity.
  - rewrite (Hempty eq_refl) in E. exact E.
Defined.

(** ** The diff target chosen by the model *)

(** X22.  The [target] of a [get_uncommitted_changes] call is not checked:
    any text other than [staged] and [unstaged] becomes, unchanged, the
    argument that follows [git diff] on the command line, ahead of the
    exclusion patterns. *)
Theorem diff_target_reaches_git_unchecked :
  forall (RT : Runtime) (W : World) (target : string) (h : log),
    target <> "staged" ->
    target <> "unstaged" ->
    snd (_execute_tool W "get_uncommitted_changes"
           (JObj [("target", JStr target)]) h)
    = Py.append h
        (EGit ("git" :: "diff" :: target
               :: flat_map (fun pattern => ["--"; ":!" ++ pattern])
                           EXCLUDE_PATTERNS)).
Proof.
  intros RT W target h Hs Hu.
  change (_execute_tool W "get_uncommitted_changes"
            (JObj [("target", JStr target)]))
    with (t <- lift (Ok (JStr target)) ;;
          match t with
          | JStr t => get_git_diff W t
          | _ => raise (TypeError
                          ("expected str, bytes or os.PathLike object, not "
                           ++ type_name t))
          end).
  rewrite bind_eq. unfold lift, get_git_diff.
  rewrite try_except_eq. unfold run_git, git_diff_args.
  apply String.eqb_neq in Hs, Hu. rewrite Hs, Hu.
  rewrite (fold_left_extend (fun pattern => ["--"; ":!" ++ pattern])).
  destruct (subprocess_run W h _) as [out | e]; [reflexivity |].
  destruct e; reflexivity.
Qed.

(** The witness of X22: a target that git reads as an option. *)
Lemma diff_target_reaches_git_unchecked_witness :
  snd (@_execute_tool posix_runtime (world_answers None)
         "get_uncommitted_changes"
         (JObj [("target", JStr "--output=/tmp/x")]) [])
  = [EGit ("git" :: "diff" :: "--output=/tmp/x"
           :: flat_map (fun pattern => ["--"; ":!" ++ pattern])
                       EXCLUDE_PATTERNS)].
Proof.
  apply (diff_target_reaches_git_unchecked posix_runtime (world_answers None)
           "--output=/tmp/x" []); discriminate.
Defined.
